(** * Verification of the fleet autoscaler webhook (main.go)

    The development embeds the two functions of [main.go] that carry the
    scaling policy, [getEnvVariables] and [handleAutoscale], and settles the
    properties the specification states about them.

    - Go's [float64] is IEEE 754 binary64; it is modelled by the Standard
      Library's executable specification of binary floating point
      ([spec_float] with 53 bits of precision and [emax = 1024]), so every
      product, quotient and comparison below rounds as the program's does.
    - [int32] and [int64] values are integers of [Z]; conversions that can
      leave the range are written out.
    - Go maps are [gmap]s; a nil map is [None]. *)

From Stdlib Require Import ZArith Bool Lia Ascii String.
From Stdlib Require Import Floats.SpecFloat.
From stdpp Require Import gmap strings.

Local Open Scope Z_scope.

(** ** Machine integers *)

Module Int32.
Definition min_int : Z := - 2 ^ 31.
Definition max_int : Z := 2 ^ 31 - 1.

Definition in_range (z : Z) : bool := (min_int <=? z) && (z <=? max_int).

(** Conversion of a wider integer to [int32]: the low 32 bits, read as a
    two's complement number. *)
Definition wrap (z : Z) : Z := (z + 2 ^ 31) mod 2 ^ 32 - 2 ^ 31.
End Int32.

(** ** binary64 floating point *)

Module Float64.
Definition prec : Z := 53.
Definition emax : Z := 1024.

Abbreviation float64 := spec_float.

(** [float64(z)] for an integer [z]: the nearest binary64, ties to even. *)
Definition of_Z (z : Z) : float64 := binary_normalize prec emax z 0 false.

Definition mul : float64 -> float64 -> float64 := SFmul prec emax.
Definition div : float64 -> float64 -> float64 := SFdiv prec emax.

(** Go's [x < y] and [x > y]; both are false when an operand is NaN. *)
Definition ltb (x y : float64) : bool := SFltb x y.
Definition gtb (x y : float64) : bool := SFltb y x.
Definition geb (x y : float64) : bool := SFleb y x.

Definition add : float64 -> float64 -> float64 := SFadd prec emax.

(** A decimal literal or parsed decimal [n / d] with [n] and [d] exactly
    representable: the division rounds the exact quotient once, which is
    what the Go compiler and [strconv.ParseFloat] produce for it. *)
Definition of_ratio (n d : Z) : float64 := div (of_Z n) (of_Z d).

(** The mathematical ceiling of a finite binary64, [None] for infinities
    and NaN.  For a negative exponent the value is
    [(+/- m) / 2 ^ (- e)]. *)
Definition ceilZ (x : float64) : option Z :=
  match x with
  | S754_zero _ => Some 0
  | S754_finite s m e =>
      let n := cond_Zopp s (Zpos m) in
      if 0 <=? e then Some (n * 2 ^ e)
      else Some (- ((- n) / 2 ^ (- e)))
  | _ => None
  end.

(** [math.Ceil]: the least integer value not below [x], as a binary64.
    Special cases as documented: [Ceil(+/-0) = +/-0],
    [Ceil(+/-Inf) = +/-Inf], [Ceil(NaN) = NaN]; a result of zero keeps the
    sign of [x]. *)
Definition Ceil (x : float64) : float64 :=
  match x with
  | S754_finite s m e =>
      if 0 <=? e then x
      else binary_normalize prec emax (- ((- cond_Zopp s (Zpos m)) / 2 ^ (- e))) 0 s
  | _ => x
  end.

(** The integer part of a finite binary64 (rounding toward zero). *)
Definition truncZ (x : float64) : option Z :=
  match x with
  | S754_zero _ => Some 0
  | S754_finite s m e =>
      if 0 <=? e then Some (cond_Zopp s (Zpos m * 2 ^ e))
      else Some (cond_Zopp s (Zpos m / 2 ^ (- e)))
  | _ => None
  end.
End Float64.

Import Float64.

(** ** Effects

    The handler and the configuration loader write structured log records
    and may stop early ([http.Error] followed by [return], an early
    [return] after encoding, [os.Exit]).  A computation yields the records
    it emitted, in order, and either the value it stopped with ([inl]) or
    its result ([inr]).  Every floating-point division the handler executes
    is recorded too, with its operands. *)

Inductive level := Info | Error.

Inductive event :=
  | Log (lvl : level) (msg : string)
  | Div (num den : float64).

Definition M (R A : Type) : Type := list event * (R + A).

Global Instance M_ret {R} : MRet (M R) := fun A a => ([], inr a).

Global Instance M_bind {R} : MBind (M R) := fun A B f m =>
  match m with
  | (l, inl r) => (l, inl r)
  | (l, inr a) => (l ++ (f a).1, (f a).2)
  end.

Definition emit {R} (e : event) : M R unit := ([e], inr tt).
Definition stop {R A} (r : R) : M R A := ([], inl r).

(** [x / y] on [float64], recorded. *)
Definition fdiv {R} (x y : float64) : M R float64 :=
  emit (Div x y);; mret (Float64.div x y).

(** ** Data model *)

(** The package-level variables of [main.go]. *)
Record Config := {
  replicaUpperThreshold : float64;
  replicaLowerThreshold : float64;
  scaleFactor : float64;
  minReplicasCount : Z;
  maxReplicasCount : Z;
  fixedReplicasOverrideEnabled : bool
}.

(** Their initial values. *)
Definition defaults : Config := {|
  replicaUpperThreshold := of_ratio 7 10;
  replicaLowerThreshold := of_ratio 3 10;
  scaleFactor := of_Z 2;
  minReplicasCount := 2;
  maxReplicasCount := 0;
  fixedReplicasOverrideEnabled := false
|}.

(** Assignments to one package variable. *)
Definition set_scaleFactor (v : float64) (g : Config) : Config :=
  {| replicaUpperThreshold := replicaUpperThreshold g;
     replicaLowerThreshold := replicaLowerThreshold g;
     scaleFactor := v;
     minReplicasCount := minReplicasCount g;
     maxReplicasCount := maxReplicasCount g;
     fixedReplicasOverrideEnabled := fixedReplicasOverrideEnabled g |}.

Definition set_replicaUpperThreshold (v : float64) (g : Config) : Config :=
  {| replicaUpperThreshold := v;
     replicaLowerThreshold := replicaLowerThreshold g;
     scaleFactor := scaleFactor g;
     minReplicasCount := minReplicasCount g;
     maxReplicasCount := maxReplicasCount g;
     fixedReplicasOverrideEnabled := fixedReplicasOverrideEnabled g |}.

Definition set_replicaLowerThreshold (v : float64) (g : Config) : Config :=
  {| replicaUpperThreshold := replicaUpperThreshold g;
     replicaLowerThreshold := v;
     scaleFactor := scaleFactor g;
     minReplicasCount := minReplicasCount g;
     maxReplicasCount := maxReplicasCount g;
     fixedReplicasOverrideEnabled := fixedReplicasOverrideEnabled g |}.

Definition set_minReplicasCount (v : Z) (g : Config) : Config :=
  {| replicaUpperThreshold := replicaUpperThreshold g;
     replicaLowerThreshold := replicaLowerThreshold g;
     scaleFactor := scaleFactor g;
     minReplicasCount := v;
     maxReplicasCount := maxReplicasCount g;
     fixedReplicasOverrideEnabled := fixedReplicasOverrideEnabled g |}.

Definition set_maxReplicasCount (v : Z) (g : Config) : Config :=
  {| replicaUpperThreshold := replicaUpperThreshold g;
     replicaLowerThreshold := replicaLowerThreshold g;
     scaleFactor := scaleFactor g;
     minReplicasCount := minReplicasCount g;
     maxReplicasCount := v;
     fixedReplicasOverrideEnabled := fixedReplicasOverrideEnabled g |}.

Definition set_fixedReplicasOverrideEnabled (v : bool) (g : Config) : Config :=
  {| replicaUpperThreshold := replicaUpperThreshold g;
     replicaLowerThreshold := replicaLowerThreshold g;
     scaleFactor := scaleFactor g;
     minReplicasCount := minReplicasCount g;
     maxReplicasCount := maxReplicasCount g;
     fixedReplicasOverrideEnabled := v |}.

(** The fields of the Agones review types that the handler reads or writes
    ([agones.dev/agones/pkg/apis/autoscaling/v1]). *)
Record AggregatedCounterStatus := {
  Count : Z;
  Capacity : Z
}.

Record FleetStatus := {
  Replicas : Z;
  AllocatedReplicas : Z;
  Counters : option (gmap string AggregatedCounterStatus)
}.

Record FleetAutoscaleRequest := {
  UID : string;
  Status : FleetStatus;
  Annotations : option (gmap string string)
}.

Record FleetAutoscaleResponse := {
  Scale : bool;
  Resp_Replicas : Z;
  Resp_UID : string
}.

(** [Request] and [Response] are pointers in the Go type. *)
Record FleetAutoscaleReview := {
  Request : option FleetAutoscaleRequest;
  Response : option FleetAutoscaleResponse
}.

(** What the handler leaves on the wire: an error status with its message,
    or the encoded review.  A nil [Request] in a decoded review makes the
    handler dereference nil. *)
Inductive HttpResult :=
  | HttpError (status : Z) (msg : string)
  | HttpJSON (review : FleetAutoscaleReview)
  | Panic.

Definition StatusBadRequest : Z := 400.
Definition StatusInternalServerError : Z := 500.

(** The request body after [json.NewDecoder(r.Body).Decode]. *)
Inductive body :=
  | DecodeError (err : string)
  | Decoded (faReq : FleetAutoscaleReview).

(** ** The scaling handler *)

Section Handler.
(** [strconv.Atoi]: the integer a string denotes, [None] when it returns
    an error. *)
Variable Atoi : string -> option Z.

(** The Go specification leaves the conversion of a floating-point value
    that [int32] cannot represent implementation-dependent; this is the
    value the platform produces for it. *)
Variable cvtOverflow : float64 -> Z.

(** [int32(x)] for a [float64]: the fraction is discarded. *)
Definition int32_of_float64 (x : float64) : Z :=
  match truncZ x with
  | Some z => if Int32.in_range z then z else Int32.wrap (cvtOverflow x)
  | None => Int32.wrap (cvtOverflow x)
  end.

Variable cfg : Config.

Definition capPerReplica : float64 := of_Z 5.

(** Lines 168-187: the fixed override, entered when
    [fixedReplicasOverrideEnabled] holds. *)
Definition fixedOverride (req : FleetAutoscaleRequest)
    (faResp : FleetAutoscaleResponse) : M HttpResult FleetAutoscaleResponse :=
  match Annotations req with
  | Some annotations =>
      match annotations !! "fixedReplicas" with
      | Some value =>
          match Atoi value with
          | None =>
              emit (Log Error "Invalid fixedReplicas value in annotations");;
              stop (HttpError StatusBadRequest
                      "Invalid fixedReplicas value. Must be an integer.")
          | Some replicas =>
              if replicas <? 0 then
                emit (Log Error "fixedReplicas value cannot be negative");;
                stop (HttpError StatusBadRequest
                        "Invalid fixedReplicas value. Must be >= 0.")
              else
                mret {| Scale := true;
                        Resp_Replicas := Int32.wrap replicas;
                        Resp_UID := Resp_UID faResp |}
          end
      | None => mret faResp
      end
  | None => mret faResp
  end.

(** Lines 193-234: the "rooms" counter.  When the guard of line 197 holds
    the review is encoded and the handler returns from inside the block;
    otherwise control falls through to line 235. *)
Definition roomsCounter (req : FleetAutoscaleRequest)
    (faResp : FleetAutoscaleResponse) : M HttpResult unit :=
  match Counters (Status req) with
  | Some counters =>
      match counters !! "rooms" with
      | Some room =>
          if (0 <? Capacity room) && (0 <? Replicas (Status req)) then
            let current := Replicas (Status req) in
            q ← fdiv (of_Z (Count room)) capPerReplica;
            let desired := int32_of_float64 (Ceil q) in
            let desired :=
              if desired <? minReplicasCount cfg
              then minReplicasCount cfg else desired in
            let desired :=
              if (0 <? maxReplicasCount cfg) && (maxReplicasCount cfg <? desired)
              then maxReplicasCount cfg else desired in
            emit (Log Info "Calculated capacityPerReplica");;
            let next :=
              int32_of_float64 (Ceil (Float64.mul (of_Z desired) (scaleFactor cfg))) in
            let next :=
              if next <? minReplicasCount cfg
              then minReplicasCount cfg else next in
            let next :=
              if (0 <? maxReplicasCount cfg) && (maxReplicasCount cfg <? next)
              then maxReplicasCount cfg else next in
            let faResp :=
              if negb (next =? current)
              then {| Scale := true; Resp_Replicas := next;
                      Resp_UID := Resp_UID faResp |}
              else faResp in
            stop (HttpJSON {| Request := Some req; Response := Some faResp |})
          else mret tt
      | None => mret tt
      end
  | None => mret tt
  end.

(** Lines 235-249: scaling on the allocated fraction. *)
Definition allocatedThresholds (req : FleetAutoscaleRequest)
    (faResp : FleetAutoscaleResponse) : M HttpResult FleetAutoscaleResponse :=
  allocatedPercent ←
    fdiv (of_Z (AllocatedReplicas (Status req))) (of_Z (Replicas (Status req)));
  if gtb allocatedPercent (replicaUpperThreshold cfg) then
    let currentReplicas := of_Z (Replicas (Status req)) in
    let next :=
      int32_of_float64 (Ceil (Float64.mul currentReplicas (scaleFactor cfg))) in
    let next :=
      if (0 <? maxReplicasCount cfg) && (maxReplicasCount cfg <? next)
      then maxReplicasCount cfg else next in
    mret {| Scale := true; Resp_Replicas := next; Resp_UID := Resp_UID faResp |}
  else if ltb allocatedPercent (replicaLowerThreshold cfg)
          && (minReplicasCount cfg <? Replicas (Status req)) then
    q ← fdiv (of_Z (Replicas (Status req))) (scaleFactor cfg);
    mret {| Scale := true;
            Resp_Replicas := int32_of_float64 (Ceil q);
            Resp_UID := Resp_UID faResp |}
  else mret faResp.

(** Lines 256-260.  The review built at line 252 holds a pointer to
    [faResp], so the encoded response is the one updated here. *)
Definition enforceMax (faResp : FleetAutoscaleResponse) : FleetAutoscaleResponse :=
  if (0 <? maxReplicasCount cfg) && (maxReplicasCount cfg <? Resp_Replicas faResp)
  then {| Scale := true; Resp_Replicas := maxReplicasCount cfg;
          Resp_UID := Resp_UID faResp |}
  else faResp.

(** Lines 162-263: the handler once the body is decoded and the request
    is present. *)
Definition handleReview (req : FleetAutoscaleRequest) : M HttpResult HttpResult :=
  let faResp := {| Scale := false;
                   Resp_Replicas := Replicas (Status req);
                   Resp_UID := UID req |} in
  faResp ←
    (if fixedReplicasOverrideEnabled cfg then fixedOverride req faResp
     else if negb (Replicas (Status req) =? 0) then
       roomsCounter req faResp;; allocatedThresholds req faResp
     else mret faResp);
  mret (HttpJSON {| Request := Some req; Response := Some (enforceMax faResp) |}).

(** What a computation of the handler leaves on the wire. *)
Definition written (m : M HttpResult HttpResult) : HttpResult :=
  match m.2 with
  | inl r => r
  | inr r => r
  end.

(** The decision for a request, and what computing it did. *)
Definition decision (req : FleetAutoscaleRequest) : HttpResult :=
  written (handleReview req).

Definition effects (req : FleetAutoscaleRequest) : list event :=
  (handleReview req).1.

(** [handleAutoscale]: [r] is [None] for a nil request. *)
Definition handleAutoscale (r : option body) : HttpResult :=
  match r with
  | None => HttpError StatusInternalServerError "Empty request"
  | Some (DecodeError err) => HttpError StatusInternalServerError err
  | Some (Decoded faReq) =>
      match Request faReq with
      | None => Panic
      | Some req => decision req
      end
  end.
End Handler.

(** ** Configuration loading *)

Section Environment.
(** [strconv.ParseFloat(s, 64)] and [strconv.ParseInt(s, 10, 32)]: the
    parsed value, [None] when an error is returned (which for [ParseInt]
    includes a value outside [int32]). *)
Variable ParseFloat : string -> option float64.
Variable ParseInt : string -> option Z.

(** [os.Getenv]: the value of the variable, empty when it is not set. *)
Definition Getenv (env : gmap string string) (key : string) : string :=
  default "" (env !! key).

Definition exit {A} (code : Z) : M Z A := stop code.

Variable env : gmap string string.

(** Lines 30-38. *)
Definition readScaleFactor (g : Config) : M Z Config :=
  let ep := Getenv env "SCALE_FACTOR" in
  if negb (String.eqb ep "") then
    match ParseFloat ep with
    | None =>
        emit (Log Error "Could not parse environment SCALE_FACTOR variable");;
        exit 1
    | Some factor =>
        if gtb factor (of_Z 1) then mret (set_scaleFactor factor g) else mret g
    end
  else mret g.

(** Lines 40-48. *)
Definition readUpscaleTrigger (g : Config) : M Z Config :=
  let ep := Getenv env "REPLICA_UPSCALE_TRIGGER" in
  if negb (String.eqb ep "") then
    match ParseFloat ep with
    | None =>
        emit (Log Error "Could not parse environment REPLICA_UPSCALE_TRIGGER variable");;
        exit 1
    | Some replicaUpTrigger =>
        if gtb replicaUpTrigger (of_ratio 1 10)
        then mret (set_replicaUpperThreshold replicaUpTrigger g) else mret g
    end
  else mret g.

(** Lines 50-58. *)
Definition readDownscaleTrigger (g : Config) : M Z Config :=
  let ep := Getenv env "REPLICA_DOWNSCALE_TRIGGER" in
  if negb (String.eqb ep "") then
    match ParseFloat ep with
    | None =>
        emit (Log Error "Could not parse environment REPLICA_DOWNSCALE_TRIGGER variable");;
        exit 1
    | Some replicaDownTrigger =>
        if ltb replicaDownTrigger
             (Float64.div (replicaUpperThreshold g) (scaleFactor g))
        then mret (set_replicaLowerThreshold replicaDownTrigger g) else mret g
    end
  else mret g.

(** Lines 60-68. *)
Definition readMinReplicas (g : Config) : M Z Config :=
  let ep := Getenv env "MIN_REPLICAS_COUNT" in
  if negb (String.eqb ep "") then
    match ParseInt ep with
    | None =>
        emit (Log Error "Could not parse environment MIN_REPLICAS_COUNT variable");;
        exit 1
    | Some minReplicas =>
        if 0 <=? minReplicas
        then mret (set_minReplicasCount (Int32.wrap minReplicas) g) else mret g
    end
  else mret g.

(** Lines 70-78. *)
Definition readMaxReplicas (g : Config) : M Z Config :=
  let ep := Getenv env "MAX_REPLICAS_COUNT" in
  if negb (String.eqb ep "") then
    match ParseInt ep with
    | None =>
        emit (Log Error "Could not parse environment MAX_REPLICAS_COUNT variable");;
        exit 1
    | Some maxReplicas =>
        if 0 <=? maxReplicas
        then mret (set_maxReplicasCount (Int32.wrap maxReplicas) g) else mret g
    end
  else mret g.

(** Lines 80-88. *)
Definition readFixedReplicas (g : Config) : M Z Config :=
  let ep := Getenv env "FIXED_REPLICAS" in
  if negb (String.eqb ep "") then
    if String.eqb ep "true" then
      emit (Log Info "FIXED_REPLICAS override is enabled");;
      mret (set_fixedReplicasOverrideEnabled true g)
    else
      emit (Log Info "FIXED_REPLICAS override is disabled");;
      mret (set_fixedReplicasOverrideEnabled false g)
  else mret g.

(** Lines 95-97. *)
Definition adjustLowerThreshold (g : Config) : Config :=
  if geb (replicaLowerThreshold g)
       (Float64.div (replicaUpperThreshold g) (scaleFactor g))
  then set_replicaLowerThreshold
         (Float64.div (replicaUpperThreshold g)
            (Float64.add (scaleFactor g) (of_Z 1))) g
  else g.

(** Lines 99-102. *)
Definition adjustMinReplicas (g : Config) : M Z Config :=
  if (0 <? maxReplicasCount g) && (maxReplicasCount g <? minReplicasCount g) then
    emit (Log Info "MIN_REPLICAS_COUNT exceeds MAX_REPLICAS_COUNT; adjusting min to max");;
    mret (set_minReplicasCount (maxReplicasCount g) g)
  else mret g.

(** [getEnvVariables], run on the package variables [g]: the log it
    writes, and the exit code or the variables it leaves. *)
Definition getEnvVariables (g : Config) : M Z Config :=
  g ← readScaleFactor g;
  g ← readUpscaleTrigger g;
  g ← readDownscaleTrigger g;
  g ← readMinReplicas g;
  g ← readMaxReplicas g;
  g ← readFixedReplicas g;
  adjustMinReplicas (adjustLowerThreshold g).
End Environment.

(** ** Library functions used to run the program on examples

    [strconv.Atoi], [strconv.ParseInt] and [strconv.ParseFloat] belong to
    the Go standard library and the theorems below hold for any functions in
    their place.  The instances here follow their documented behaviour on
    plain decimal input. *)

Module Strconv.
Definition digit (c : Ascii.ascii) : option Z :=
  let n := Z.of_N (Ascii.N_of_ascii c) - 48 in
  if (0 <=? n) && (n <=? 9) then Some n else None.

Fixpoint digits (s : string) (acc : Z) : option Z :=
  match s with
  | EmptyString => Some acc
  | String c s' =>
      match digit c with
      | Some d => digits s' (10 * acc + d)
      | None => None
      end
  end.

(** An optional sign, then the rest of the string. *)
Definition sign (s : string) : bool * string :=
  match s with
  | String "-" s' => (true, s')
  | String "+" s' => (false, s')
  | _ => (false, s)
  end.

(** A signed decimal integer of [bits] bits; syntax and range errors are
    [None]. *)
Definition parseDecimal (bits : Z) (s : string) : option Z :=
  let '(neg, ds) := sign s in
  match ds with
  | EmptyString => None
  | _ =>
      match digits ds 0 with
      | Some n =>
          let v := if neg then - n else n in
          if (- 2 ^ (bits - 1) <=? v) && (v <? 2 ^ (bits - 1)) then Some v else None
      | None => None
      end
  end.

(** [strconv.Atoi] where [int] has 64 bits. *)
Definition Atoi : string -> option Z := parseDecimal 64.

(** [strconv.ParseInt(s, 10, 32)]. *)
Definition ParseInt32 : string -> option Z := parseDecimal 32.

(** Splits [s] at its first ["."]. *)
Fixpoint splitPoint (s : string) : string * option string :=
  match s with
  | EmptyString => (EmptyString, None)
  | String "." s' => (EmptyString, Some s')
  | String c s' => let '(i, f) := splitPoint s' in (String c i, f)
  end.

(** [strconv.ParseFloat(s, 64)] on decimals [i.f] of at most 15
    significant digits and 22 decimals, for which one correctly rounded
    division yields the nearest binary64; anything else is reported as an
    error by this instance. *)
Definition ParseFloat (s : string) : option float64 :=
  let '(neg, ds) := sign s in
  let '(i, f) := splitPoint ds in
  let f := default EmptyString f in
  match String.append i f with
  | EmptyString => None
  | ms =>
      match digits ms 0 with
      | Some n =>
          if (n <? 10 ^ 15) && (Z.of_nat (String.length f) <=? 22) then
            if n =? 0 then Some (S754_zero neg)
            else Some (of_ratio (if neg then - n else n)
                         (10 ^ Z.of_nat (String.length f)))
          else None
      | None => None
      end
  end.
End Strconv.

(** The amd64 instruction the compiler emits for the conversion
    ([CVTTSD2SL]) yields the most negative [int32] when the value does not
    fit. *)
Definition amd64_cvtOverflow (x : float64) : Z := Int32.min_int.

(** ** Vocabulary of the specification *)

(** The [fixedReplicas] annotation of a request, if any (a nil map has
    none). *)
Definition fixedAnnotation (req : FleetAutoscaleRequest) : option string :=
  Annotations req ≫= (.!! "fixedReplicas").

(** The ["rooms"] counter of a request, if any. *)
Definition roomsOf (req : FleetAutoscaleRequest) : option AggregatedCounterStatus :=
  Counters (Status req) ≫= (.!! "rooms").

(** The capacity counter is present with [capacity > 0] and
    [currentReplicas > 0]. *)
Definition capacityCounterUsable (req : FleetAutoscaleRequest) : bool :=
  match roomsOf req with
  | Some room => (0 <? Capacity room) && (0 <? Replicas (Status req))
  | None => false
  end.

(** The review a Decision [{scale, replicas}] is returned in: the request
    echoed, the correlation identifier copied. *)
Definition decided (req : FleetAutoscaleRequest) (scale : bool) (replicas : Z)
    : HttpResult :=
  HttpJSON {| Request := Some req;
              Response := Some {| Scale := scale;
                                  Resp_Replicas := replicas;
                                  Resp_UID := UID req |} |}.

(** An [InvalidInput] rejection. *)
Definition rejected (r : HttpResult) : Prop :=
  exists msg, r = HttpError StatusBadRequest msg.

(** The annotation value is not a well-formed integer, or is negative. *)
Definition invalidReplicas (Atoi : string -> option Z) (value : string) : Prop :=
  Atoi value = None \/ exists v, Atoi value = Some v /\ v < 0.

(** Clamping to [[lo, hi]], where [hi = 0] stands for no upper bound. *)
Definition clamp (lo hi x : Z) : Z :=
  let x := Z.max lo x in
  if 0 <? hi then Z.min hi x else x.

(** The final clamp: to [maxReplicas] when it is set. *)
Definition clampMax (hi x : Z) : Z :=
  if 0 <? hi then Z.min hi x else x.

Section Targets.
Variable cvtOverflow : float64 -> Z.
Variable cfg : Config.

(** [ceil] of a [float64] as a replica count: [math.Ceil], converted to
    [int32]. *)
Definition ceil32 (x : float64) : Z := int32_of_float64 cvtOverflow (Ceil x).

(** Capacity-counter mode, in the words of the specification. *)
Definition capacityTarget (count : Z) : Z :=
  let baseDesired :=
    clamp (minReplicasCount cfg) (maxReplicasCount cfg)
      (ceil32 (Float64.div (of_Z count) (of_Z 5))) in
  clamp (minReplicasCount cfg) (maxReplicasCount cfg)
    (ceil32 (Float64.mul (of_Z baseDesired) (scaleFactor cfg))).

(** The allocated fraction of a request. *)
Definition allocatedFraction (req : FleetAutoscaleRequest) : float64 :=
  Float64.div (of_Z (AllocatedReplicas (Status req))) (of_Z (Replicas (Status req))).

(** Up-scale and down-scale targets of utilization-threshold mode. *)
Definition upscaleTarget (currentReplicas : Z) : Z :=
  ceil32 (Float64.mul (of_Z currentReplicas) (scaleFactor cfg)).

Definition downscaleTarget (currentReplicas : Z) : Z :=
  ceil32 (Float64.div (of_Z currentReplicas) (scaleFactor cfg)).
End Targets.

(** A request is handled in utilization-threshold mode. *)
Definition thresholdMode (cfg : Config) (req : FleetAutoscaleRequest) : Prop :=
  fixedReplicasOverrideEnabled cfg = false /\
  Replicas (Status req) <> 0 /\
  capacityCounterUsable req = false.

(** ** Example configurations and requests *)

Definition fleet (replicas allocated : Z)
    (counters : option (gmap string AggregatedCounterStatus))
    (annotations : option (gmap string string)) : FleetAutoscaleRequest :=
  {| UID := "review-1";
     Status := {| Replicas := replicas;
                  AllocatedReplicas := allocated;
                  Counters := counters |};
     Annotations := annotations |}.

(** Ten replicas with fifty rooms in use out of a hundred. *)
Definition rooms_half_full : FleetAutoscaleRequest :=
  fleet 10 0 (Some {[ "rooms" := {| Count := 50; Capacity := 100 |} ]}) None.

(** Three replicas, and an operator asking for three. *)
Definition pinned_at_three : FleetAutoscaleRequest :=
  fleet 3 0 None (Some {[ "fixedReplicas" := "3" ]}).

(** An operator asking for a negative count. *)
Definition pinned_negative : FleetAutoscaleRequest :=
  fleet 3 0 None (Some {[ "fixedReplicas" := "-1" ]}).

Definition override_enabled : Config := set_fixedReplicasOverrideEnabled true defaults.
Definition at_most_six : Config := set_maxReplicasCount 6 defaults.

(** The environment [SCALE_FACTOR=1.3 REPLICA_DOWNSCALE_TRIGGER=0.52], and
    the package variables [getEnvVariables] leaves under it. *)
Definition gentle_env : gmap string string :=
  {[ "SCALE_FACTOR" := "1.3"; "REPLICA_DOWNSCALE_TRIGGER" := "0.52" ]}.

Definition gentle : Config :=
  set_replicaLowerThreshold (of_ratio 52 100) (set_scaleFactor (of_ratio 13 10) defaults).

(** An environment whose values all parse and all fail their range check. *)
Definition out_of_range_env : gmap string string :=
  {[ "SCALE_FACTOR" := "0.5"; "REPLICA_UPSCALE_TRIGGER" := "0.05";
     "REPLICA_DOWNSCALE_TRIGGER" := "0.9"; "MIN_REPLICAS_COUNT" := "-1";
     "MAX_REPLICAS_COUNT" := "-4" ]}.

(** A variable is explicitly set and its value does not parse. *)
Definition unparsable {A} (parse : string -> option A)
    (env : gmap string string) (key : string) : Prop :=
  Getenv env key <> "" /\ parse (Getenv env key) = None.

(** The process was terminated with [os.Exit(1)]. *)
Definition exited {A} (m : M Z A) : Prop := m.2 = inl 1.

(** The package variables once [SCALE_FACTOR] and [REPLICA_UPSCALE_TRIGGER]
    are read: those that the check of [REPLICA_DOWNSCALE_TRIGGER] uses. *)
Definition triggersRead (ParseFloat : string -> option float64)
    (env : gmap string string) (g : Config) : M Z Config :=
  g ← readScaleFactor ParseFloat env g; readUpscaleTrigger ParseFloat env g.

(** ** The health endpoint and the entry point *)

(** What [handleHealth] writes: a header, a status line and a body. *)
Record HealthResponse := {
  Health_ContentType : string;
  Health_StatusCode : Z;
  Health_Body : string
}.

Definition StatusOK : Z := 200.

(** [handleHealth]; the request is not looked at. *)
Definition handleHealth (r : option body) : HealthResponse :=
  {| Health_ContentType := "application/json";
     Health_StatusCode := StatusOK;
     Health_Body := "Healthy" |}.

(** The server [main] starts. *)
Inductive Listener :=
  | ListenAndServeTLS (addr certFile keyFile : string)
  | ListenAndServe (addr : string).

(** The listener together with the package variables the handlers read
    while it runs. *)
Record Serving := {
  listener : Listener;
  variables : Config
}.

Section Main.
Variable ParseFloat : string -> option float64.
Variable ParseInt : string -> option Z.

(** [main] up to the call that starts the server.  [portFlag] is the value
    of [-port] when the command line gives one, [certPresent] tells
    whether [os.Stat] finds the certificate, [g] holds the package
    variables at program start. *)
Definition main (portFlag : option string) (env : gmap string string)
    (certPresent : bool) (g : Config) : M Z Serving :=
  let port := default "8000" portFlag in
  let port :=
    let ep := Getenv env "PORT" in
    if negb (String.eqb ep "") then ep else port in
  g ← getEnvVariables ParseFloat ParseInt env g;
  if certPresent then
    emit (Log Info "Starting HTTPS server");;
    mret {| listener :=
              ListenAndServeTLS (":" ++ port) "/home/service/certs/tls.crt"
                "/home/service/certs/tls.key";
            variables := g |}
  else
    emit (Log Info "Starting HTTP server");;
    mret {| listener := ListenAndServe (":" ++ port); variables := g |}.
End Main.

(** ** Vocabulary of the further properties *)

(** One of the five parsed variables is set and does not parse. *)
Definition malformed (ParseFloat : string -> option float64)
    (ParseInt : string -> option Z) (env : gmap string string) : Prop :=
  unparsable ParseFloat env "SCALE_FACTOR" \/
  unparsable ParseFloat env "REPLICA_UPSCALE_TRIGGER" \/
  unparsable ParseFloat env "REPLICA_DOWNSCALE_TRIGGER" \/
  unparsable ParseInt env "MIN_REPLICAS_COUNT" \/
  unparsable ParseInt env "MAX_REPLICAS_COUNT".

(** The bounds are consistent: a set maximum is not below the minimum. *)
Definition boundsOrdered (g : Config) : Prop :=
  0 < maxReplicasCount g -> minReplicasCount g <= maxReplicasCount g.

Section Paths.
Variable cvtOverflow : float64 -> Z.
Variable cfg : Config.

(** The seven ways through the handler. *)
Variant path (req : FleetAutoscaleRequest) : M HttpResult HttpResult -> Prop :=
  | path_unparsable :
      path req
        ([Log Error "Invalid fixedReplicas value in annotations"],
         inl (HttpError StatusBadRequest
                "Invalid fixedReplicas value. Must be an integer."))
  | path_negative :
      path req
        ([Log Error "fixedReplicas value cannot be negative"],
         inl (HttpError StatusBadRequest "Invalid fixedReplicas value. Must be >= 0."))
  | path_pinned v :
      path req
        ([], inr (decided req true (clampMax (maxReplicasCount cfg) (Int32.wrap v))))
  | path_untouched :
      (fixedReplicasOverrideEnabled cfg = true \/ Replicas (Status req) = 0) ->
      path req
        ([], inr (if (0 <? maxReplicasCount cfg)
                     && (maxReplicasCount cfg <? Replicas (Status req))
                  then decided req true (maxReplicasCount cfg)
                  else decided req false (Replicas (Status req))))
  | path_rooms room :
      roomsOf req = Some room ->
      path req
        ([Div (of_Z (Count room)) capPerReplica; Log Info "Calculated capacityPerReplica"],
         inl (let target := capacityTarget cvtOverflow cfg (Count room) in
              decided req (negb (target =? Replicas (Status req))) target))
  | path_thresholds :
      thresholdMode cfg req ->
      path req
        (let division :=
           Div (of_Z (AllocatedReplicas (Status req))) (of_Z (Replicas (Status req))) in
         let current := Replicas (Status req) in
         if gtb (allocatedFraction req) (replicaUpperThreshold cfg) then
           ([division],
            inr (decided req true
                   (clampMax (maxReplicasCount cfg)
                      (upscaleTarget cvtOverflow cfg current))))
         else if ltb (allocatedFraction req) (replicaLowerThreshold cfg)
                 && (minReplicasCount cfg <? current) then
           ([division; Div (of_Z current) (scaleFactor cfg)],
            inr (decided req true
                   (clampMax (maxReplicasCount cfg)
                      (downscaleTarget cvtOverflow cfg current))))
         else
           ([division],
            inr (if (0 <? maxReplicasCount cfg) && (maxReplicasCount cfg <? current)
                 then decided req true (maxReplicasCount cfg)
                 else decided req false current))).
End Paths.

(** The request without its counters. *)
Definition withoutCounters (req : FleetAutoscaleRequest) : FleetAutoscaleRequest :=
  {| UID := UID req;
     Status := {| Replicas := Replicas (Status req);
                  AllocatedReplicas := AllocatedReplicas (Status req);
                  Counters := None |};
     Annotations := Annotations req |}.

(** The response of a review, when the handler answered with one. *)
Definition responseOf (r : HttpResult) : option FleetAutoscaleResponse :=
  match r with
  | HttpJSON review => Response review
  | _ => None
  end.

(** ** Further example environments and requests *)

(** A minimum above the maximum. *)
Definition swapped_bounds_env : gmap string string :=
  {[ "MIN_REPLICAS_COUNT" := "5"; "MAX_REPLICAS_COUNT" := "3" ]}.

(** The override asked for in capitals. *)
Definition shouting_env : gmap string string := {[ "FIXED_REPLICAS" := "TRUE" ]}.

(** Only the port is set. *)
Definition port_only_env : gmap string string := {[ "PORT" := "9000" ]}.

(** An operator asking for one replica more than an [int32] can hold. *)
Definition pinned_beyond_int32 : FleetAutoscaleRequest :=
  fleet 3 0 None (Some {[ "fixedReplicas" := "2147483648" ]}).

(** Ten replicas, eight allocated, and a "rooms" counter without capacity. *)
Definition rooms_without_capacity : FleetAutoscaleRequest :=
  fleet 10 8 (Some {[ "rooms" := {| Count := 50; Capacity := 0 |} ]}) None.

(** * Properties *)

(** ** Facts about binary64 *)

Lemma digits2_pos_bounds (p : positive) :
  2 ^ (Zpos (digits2_pos p) - 1) <= Zpos p < 2 ^ Zpos (digits2_pos p).
Proof.
  induction p as [p IH | p IH |]; cbn [digits2_pos].
  - rewrite Pos2Z.inj_succ, Z.pow_succ_r by lia.
    replace (Z.succ (Z.pos (digits2_pos p)) - 1)
      with (Z.succ (Z.pos (digits2_pos p) - 1)) by lia.
    rewrite Z.pow_succ_r by lia. lia.
  - rewrite Pos2Z.inj_succ, Z.pow_succ_r by lia.
    replace (Z.succ (Z.pos (digits2_pos p)) - 1)
      with (Z.succ (Z.pos (digits2_pos p) - 1)) by lia.
    rewrite Z.pow_succ_r by lia. lia.
  - cbn. lia.
Qed.

Lemma iter_xO_pow (p k : positive) :
  Zpos (Pos.iter xO p k) = Zpos p * 2 ^ Zpos k.
Proof.
  induction k as [| k IH] using Pos.peano_ind.
  - cbn. lia.
  - rewrite Pos.iter_succ, Pos2Z.inj_succ, Z.pow_succ_r by lia.
    rewrite Pos2Z.inj_xO, IH. lia.
Qed.

Lemma iter_xO_digits (p k : positive) :
  Zpos (digits2_pos (Pos.iter xO p k)) = Zpos (digits2_pos p) + Zpos k.
Proof.
  induction k as [| k IH] using Pos.peano_ind.
  - cbn. lia.
  - rewrite Pos.iter_succ. cbn [digits2_pos]. rewrite !Pos2Z.inj_succ, IH. lia.
Qed.

(** Rounding a mantissa that is already in canonical form changes nothing. *)
Lemma round_canonical (s : bool) (m : positive) (e : Z) :
  bounded prec emax m e = true ->
  binary_round_aux prec emax s (Zpos m) e loc_Exact = S754_finite s m e.
Proof.
  unfold bounded, canonical_mantissa. intros [Hc He]%andb_prop.
  apply Z.eqb_eq in Hc.
  unfold binary_round_aux, shr_fexp. cbn [Zdigits2 shr_record_of_loc].
  rewrite Hc, Z.sub_diag. cbn [shr shr_m loc_of_shr_record round_nearest_even Zdigits2].
  rewrite Hc, Z.sub_diag. cbn [shr shr_m]. now rewrite He.
Qed.

(** An integer below [2 ^ 53] in magnitude converts without rounding: the
    mantissa is the integer shifted left, the exponent undoes the shift. *)
Lemma normalize_small (s sz : bool) (p : positive) :
  Zpos p < 2 ^ 53 ->
  exists m e,
    binary_normalize prec emax (cond_Zopp s (Zpos p)) 0 sz = S754_finite s m e /\
    e <= 0 /\ Zpos m = Zpos p * 2 ^ (- e).
Proof.
  intros Hp.
  pose proof (digits2_pos_bounds p) as [Hlo Hhi].
  assert (Hd : Zpos (digits2_pos p) <= 53).
  { destruct (Z_le_gt_dec (Zpos (digits2_pos p)) 53) as [|Hgt]; [assumption|].
    exfalso.
    assert (2 ^ 53 <= 2 ^ (Zpos (digits2_pos p) - 1)) by (apply Z.pow_le_mono_r; lia).
    lia. }
  assert (Hn : binary_normalize prec emax (cond_Zopp s (Zpos p)) 0 sz
               = binary_round prec emax s p 0) by (destruct s; reflexivity).
  rewrite Hn. unfold binary_round, shl_align.
  assert (Hf : fexp prec emax (Zpos (digits2_pos p) + 0) = Zpos (digits2_pos p) - 53).
  { unfold fexp, emin, prec, emax. lia. }
  rewrite Hf.
  destruct (Zpos (digits2_pos p) - 53 - 0) as [| k | k] eqn:Hk.
  - exists p, 0. rewrite round_canonical.
    + split; [reflexivity | split; [lia | cbn; lia]].
    + unfold bounded, canonical_mantissa. rewrite Hf.
      apply andb_true_intro.
      split; [apply Z.eqb_eq; lia | apply Z.leb_le; unfold emax, prec; lia].
  - lia.
  - exists (Pos.iter xO p k), (Zpos (digits2_pos p) - 53). rewrite round_canonical.
    + split; [reflexivity | split; [lia |]].
      rewrite iter_xO_pow. f_equal. f_equal. lia.
    + unfold bounded, canonical_mantissa. rewrite iter_xO_digits.
      apply andb_true_intro. split.
      * apply Z.eqb_eq. unfold fexp, emin, prec, emax. lia.
      * apply Z.leb_le. unfold emax, prec. lia.
Qed.

Lemma signed_magnitude (z : Z) :
  z <> 0 -> exists s p, z = cond_Zopp s (Zpos p).
Proof.
  destruct z as [| p | p]; intros Hz.
  - congruence.
  - now exists false, p.
  - now exists true, p.
Qed.

Lemma truncZ_normalize (z : Z) (sz : bool) :
  - 2 ^ 53 < z < 2 ^ 53 ->
  truncZ (binary_normalize prec emax z 0 sz) = Some z.
Proof.
  intros Hz. destruct (Z.eq_dec z 0) as [-> | Hnz]; [reflexivity |].
  destruct (signed_magnitude z Hnz) as (s & p & ->).
  assert (Hp : Zpos p < 2 ^ 53) by (destruct s; cbn [cond_Zopp] in Hz; lia).
  destruct (normalize_small s sz p Hp) as (m & e & -> & He & Hm).
  cbn [truncZ]. destruct (Z.leb_spec 0 e) as [H0 | H0].
  - assert (e = 0) as -> by lia. cbn in Hm. do 2 f_equal. lia.
  - do 2 f_equal. rewrite Hm. apply Z.div_mul.
    apply Z.pow_nonzero; lia.
Qed.

(** [float64(z)] is exact for every [z] an [int32] can hold (and beyond). *)
Lemma truncZ_of_Z (z : Z) :
  - 2 ^ 53 < z < 2 ^ 53 -> truncZ (of_Z z) = Some z.
Proof. apply truncZ_normalize. Qed.

(** It is zero only for [z = 0]. *)
Lemma of_Z_finite (z : Z) :
  z <> 0 -> - 2 ^ 53 < z < 2 ^ 53 -> exists s m e, of_Z z = S754_finite s m e.
Proof.
  intros Hnz Hz. destruct (signed_magnitude z Hnz) as (s & p & ->).
  assert (Hp : Zpos p < 2 ^ 53) by (destruct s; cbn [cond_Zopp] in Hz; lia).
  destruct (normalize_small s false p Hp) as (m & e & H & _).
  exists s, m, e. exact H.
Qed.

(** [math.Ceil] returns the mathematical ceiling. *)
Lemma Ceil_exact (x : float64) (z : Z) :
  ceilZ x = Some z -> - 2 ^ 53 < z < 2 ^ 53 -> truncZ (Ceil x) = Some z.
Proof.
  destruct x as [s | s | | s m e]; cbn [ceilZ Ceil]; try discriminate.
  - intros [= <-] _. reflexivity.
  - destruct (Z.leb_spec 0 e) as [He | He]; intros [= <-] Hz.
    + cbn [truncZ]. destruct (Z.leb_spec 0 e); [| lia].
      destruct s; cbn [cond_Zopp]; f_equal; lia.
    + now apply truncZ_normalize.
Qed.

(** So [int32(math.Ceil(x))] is the ceiling of [x] whenever that fits. *)
Lemma ceil32_exact (cvtOverflow : float64 -> Z) (x : float64) (z : Z) :
  ceilZ x = Some z -> Int32.in_range z = true -> ceil32 cvtOverflow x = z.
Proof.
  intros Hc Hr. unfold ceil32, int32_of_float64.
  assert (Hz : - 2 ^ 53 < z < 2 ^ 53).
  { unfold Int32.in_range, Int32.min_int, Int32.max_int in Hr.
    apply andb_prop in Hr as [H1%Z.leb_le H2%Z.leb_le]. lia. }
  now rewrite (Ceil_exact x z Hc Hz), Hr.
Qed.

(** The targets of the specification are therefore mathematical ceilings
    of the rounded products and quotients, as long as these fit [int32];
    what the platform does beyond plays no part. *)
Lemma capacityTarget_exact (cvtOverflow : float64 -> Z) (cfg : Config)
    (count baseDesired target : Z) :
  ceilZ (Float64.div (of_Z count) (of_Z 5)) = Some baseDesired ->
  Int32.in_range baseDesired = true ->
  ceilZ (Float64.mul
           (of_Z (clamp (minReplicasCount cfg) (maxReplicasCount cfg) baseDesired))
           (scaleFactor cfg)) = Some target ->
  Int32.in_range target = true ->
  capacityTarget cvtOverflow cfg count =
    clamp (minReplicasCount cfg) (maxReplicasCount cfg) target.
Proof.
  intros Hb Hbr Ht Htr. unfold capacityTarget. cbn zeta.
  rewrite (ceil32_exact _ _ _ Hb Hbr). now rewrite (ceil32_exact _ _ _ Ht Htr).
Qed.

Lemma upscaleTarget_exact (cvtOverflow : float64 -> Z) (cfg : Config)
    (currentReplicas target : Z) :
  ceilZ (Float64.mul (of_Z currentReplicas) (scaleFactor cfg)) = Some target ->
  Int32.in_range target = true ->
  upscaleTarget cvtOverflow cfg currentReplicas = target.
Proof. apply ceil32_exact. Qed.

Lemma downscaleTarget_exact (cvtOverflow : float64 -> Z) (cfg : Config)
    (currentReplicas target : Z) :
  ceilZ (Float64.div (of_Z currentReplicas) (scaleFactor cfg)) = Some target ->
  Int32.in_range target = true ->
  downscaleTarget cvtOverflow cfg currentReplicas = target.
Proof. apply ceil32_exact. Qed.

(** [<] on binary64 is asymmetric. *)
Lemma ltb_asym (x y : float64) : ltb x y = true -> ltb y x = false.
Proof.
  unfold ltb, SFltb.
  destruct x as [sx | sx | | sx mx ex], y as [sy | sy | | sy my ey];
    cbn [SFcompare]; try discriminate; try reflexivity;
    try (destruct sx; discriminate); try (destruct sy; discriminate);
    try (destruct sx, sy; discriminate || reflexivity).
  destruct sx, sy; try discriminate; try reflexivity;
    rewrite (Z.compare_antisym ex ey);
    destruct (ex ?= ey) eqn:He; cbn [CompOpp]; try discriminate; try reflexivity;
    change (Pos.compare_cont Eq my mx) with (Pos.compare_cont (CompOpp Eq) my mx);
    rewrite <- (Pos.compare_cont_antisym mx my Eq);
    destruct (Pos.compare_cont Eq mx my); cbn [CompOpp]; try discriminate; reflexivity.
Qed.

(** ... and transitive. *)
Lemma ltb_trans (x y z : float64) : ltb x y = true -> ltb y z = true -> ltb x z = true.
Proof.
  unfold ltb, SFltb.
  destruct x as [sx | sx | | sx mx ex], y as [sy | sy | | sy my ey], z as [sz | sz | | sz mz ez];
    cbn [SFcompare]; try discriminate; try reflexivity;
    try (destruct sx; discriminate || reflexivity);
    try (destruct sy; discriminate || reflexivity);
    try (destruct sz; discriminate || reflexivity);
    try (destruct sx, sy; discriminate || reflexivity);
    try (destruct sy, sz; discriminate || reflexivity);
    try (destruct sx, sz; discriminate || reflexivity);
    try (destruct sx, sy, sz; discriminate || reflexivity).
  all: change (Pos.compare_cont Eq) with Pos.compare.
  all: destruct sx, sy, sz; try discriminate; try reflexivity.
  all: destruct (Z.compare_spec ex ey), (Z.compare_spec ey ez), (Z.compare_spec ex ez);
      try discriminate; try reflexivity; try lia.
  all: destruct (Pos.compare_spec mx my), (Pos.compare_spec my mz), (Pos.compare_spec mx mz);
      cbn [CompOpp]; try discriminate; try reflexivity; try lia.
Qed.

(** [x <= y] excludes [x > y], so a value at or below a bound fails a
    strict comparison against it. *)
Lemma leb_not_gtb (x y : float64) : SFleb x y = true -> gtb x y = false.
Proof.
  unfold gtb, SFltb, SFleb.
  destruct x as [sx | sx | | sx mx ex], y as [sy | sy | | sy my ey];
    cbn [SFcompare]; try discriminate; try reflexivity;
    try (destruct sx; discriminate || reflexivity);
    try (destruct sy; discriminate || reflexivity);
    try (destruct sx, sy; discriminate || reflexivity).
  destruct sx, sy; try discriminate; try reflexivity;
    rewrite (Z.compare_antisym ex ey);
    destruct (ex ?= ey) eqn:He; cbn [CompOpp]; try discriminate; try reflexivity;
    change (Pos.compare_cont Eq my mx) with (Pos.compare_cont (CompOpp Eq) my mx);
    rewrite <- (Pos.compare_cont_antisym mx my Eq);
    destruct (Pos.compare_cont Eq mx my); cbn [CompOpp]; try discriminate; reflexivity.
Qed.

(** The constants of the program, as the compiler rounds them. *)
Example literal_0_7 :
  of_ratio 7 10 = S754_finite false 0x16666666666666 (-53).
Proof. reflexivity. Qed.

Example literal_0_3 :
  of_ratio 3 10 = S754_finite false 0x13333333333333 (-54).
Proof. reflexivity. Qed.

Example literal_0_1 :
  of_ratio 1 10 = S754_finite false 0x1999999999999a (-56).
Proof. reflexivity. Qed.

Example literal_5 : capPerReplica = S754_finite false 0x14000000000000 (-50).
Proof. reflexivity. Qed.

(** ** The handler, branch by branch *)

Lemma clamp_steps (lo hi x : Z) :
  (let y := if x <? lo then lo else x in
   if (0 <? hi) && (hi <? y) then hi else y) = clamp lo hi x.
Proof.
  unfold clamp. cbn zeta.
  destruct (Z.ltb_spec x lo), (Z.ltb_spec 0 hi); cbn [andb];
    repeat match goal with |- context [?a <? ?b] => destruct (Z.ltb_spec a b) end; lia.
Qed.

Lemma clampMax_steps (hi x : Z) :
  (if (0 <? hi) && (hi <? x) then hi else x) = clampMax hi x.
Proof.
  unfold clampMax. destruct (Z.ltb_spec 0 hi), (Z.ltb_spec hi x); cbn [andb]; lia.
Qed.

Section HandlerFacts.
Variable Atoi : string -> option Z.
Variable cvtOverflow : float64 -> Z.
Variable cfg : Config.

Lemma fixedOverride_absent req faResp :
  fixedAnnotation req = None -> fixedOverride Atoi req faResp = mret faResp.
Proof.
  unfold fixedAnnotation, fixedOverride.
  destruct (Annotations req) as [annotations |]; cbn; [| reflexivity].
  now intros ->.
Qed.

Lemma fixedOverride_present req faResp value :
  fixedAnnotation req = Some value ->
  fixedOverride Atoi req faResp =
    match Atoi value with
    | None =>
        ([Log Error "Invalid fixedReplicas value in annotations"],
         inl (HttpError StatusBadRequest
                "Invalid fixedReplicas value. Must be an integer."))
    | Some replicas =>
        if replicas <? 0 then
          ([Log Error "fixedReplicas value cannot be negative"],
           inl (HttpError StatusBadRequest
                  "Invalid fixedReplicas value. Must be >= 0."))
        else
          mret {| Scale := true;
                  Resp_Replicas := Int32.wrap replicas;
                  Resp_UID := Resp_UID faResp |}
    end.
Proof.
  unfold fixedAnnotation, fixedOverride.
  destruct (Annotations req) as [annotations |]; cbn; [| discriminate].
  intros ->. destruct (Atoi value) as [replicas |]; [| reflexivity].
  now destruct (replicas <? 0).
Qed.

Lemma roomsCounter_unusable req faResp :
  capacityCounterUsable req = false ->
  roomsCounter cvtOverflow cfg req faResp = mret tt.
Proof.
  unfold capacityCounterUsable, roomsOf, roomsCounter.
  destruct (Counters (Status req)) as [counters |]; cbn; [| reflexivity].
  destruct (counters !! "rooms") as [room |]; [| reflexivity].
  now intros ->.
Qed.

Lemma roomsCounter_usable req faResp room :
  roomsOf req = Some room ->
  0 < Capacity room ->
  0 < Replicas (Status req) ->
  roomsCounter cvtOverflow cfg req faResp =
    ([Div (of_Z (Count room)) capPerReplica; Log Info "Calculated capacityPerReplica"],
     inl (HttpJSON
            {| Request := Some req;
               Response :=
                 Some (let next := capacityTarget cvtOverflow cfg (Count room) in
                       if negb (next =? Replicas (Status req))
                       then {| Scale := true; Resp_Replicas := next;
                               Resp_UID := Resp_UID faResp |}
                       else faResp) |})).
Proof.
  unfold roomsOf, roomsCounter.
  destruct (Counters (Status req)) as [counters |]; cbn; [| discriminate].
  intros -> Hcap%Z.ltb_lt Hrep%Z.ltb_lt. rewrite Hcap, Hrep. cbn.
  unfold capacityTarget, ceil32, capPerReplica.
  now rewrite <- !clamp_steps.
Qed.

Lemma allocatedThresholds_eval req faResp :
  allocatedThresholds cvtOverflow cfg req faResp =
    let division :=
      Div (of_Z (AllocatedReplicas (Status req))) (of_Z (Replicas (Status req))) in
    if gtb (allocatedFraction req) (replicaUpperThreshold cfg) then
      ([division],
       inr {| Scale := true;
              Resp_Replicas :=
                clampMax (maxReplicasCount cfg)
                  (upscaleTarget cvtOverflow cfg (Replicas (Status req)));
              Resp_UID := Resp_UID faResp |})
    else if ltb (allocatedFraction req) (replicaLowerThreshold cfg)
            && (minReplicasCount cfg <? Replicas (Status req)) then
      ([division; Div (of_Z (Replicas (Status req))) (scaleFactor cfg)],
       inr {| Scale := true;
              Resp_Replicas := downscaleTarget cvtOverflow cfg (Replicas (Status req));
              Resp_UID := Resp_UID faResp |})
    else ([division], inr faResp).
Proof.
  unfold allocatedThresholds, allocatedFraction, upscaleTarget, downscaleTarget, ceil32.
  cbn. destruct (gtb _ _); [| destruct (_ && _)]; cbn; try reflexivity.
  now rewrite clampMax_steps.
Qed.


(** Every outcome is a 400 rejection or a review for the request. *)
Lemma decision_shape req :
  rejected (decision Atoi cvtOverflow cfg req) \/
  exists scale replicas, decision Atoi cvtOverflow cfg req = decided req scale replicas.
Proof.
  unfold decision, handleReview, rejected, decided.
  destruct (fixedReplicasOverrideEnabled cfg).
  - destruct (fixedAnnotation req) as [value |] eqn:Hann.
    + rewrite (fixedOverride_present _ _ _ Hann).
      destruct (Atoi value) as [replicas |]; [destruct (replicas <? 0) |]; cbn; eauto.
      right. unfold enforceMax; cbn. destruct (_ && _); eauto.
    + rewrite (fixedOverride_absent _ _ Hann). cbn. right.
      unfold enforceMax; cbn. destruct (_ && _); eauto.
  - destruct (Replicas (Status req) =? 0) eqn:Hz; cbn [negb].
    + cbn. right. unfold enforceMax; cbn. destruct (_ && _); eauto.
    + destruct (capacityCounterUsable req) eqn:Hu.
      * unfold capacityCounterUsable in Hu.
        destruct (roomsOf req) as [room |] eqn:Hroom; [| discriminate].
        apply andb_prop in Hu as [Hc%Z.ltb_lt Hr%Z.ltb_lt].
        rewrite (roomsCounter_usable _ _ _ Hroom Hc Hr). cbn. right.
        destruct (negb _); eauto.
      * rewrite (roomsCounter_unusable _ _ Hu), allocatedThresholds_eval.
        cbn zeta. right.
        destruct (gtb _ _); [| destruct (_ && _)]; cbn;
          unfold enforceMax; cbn; destruct (_ && _); eauto.
Qed.
End HandlerFacts.

(** ** The modes of the handler *)

Section Modes.
Variable Atoi : string -> option Z.
Variable cvtOverflow : float64 -> Z.
Variable cfg : Config.

(** The review written at the end of the handler for a response
    [{scale, replicas}] reached before the final clamp. *)
Lemma final_clamp req scale replicas :
  HttpJSON {| Request := Some req;
              Response := Some (enforceMax cfg {| Scale := scale;
                                                  Resp_Replicas := replicas;
                                                  Resp_UID := UID req |}) |} =
    if (0 <? maxReplicasCount cfg) && (maxReplicasCount cfg <? replicas)
    then decided req true (maxReplicasCount cfg)
    else decided req scale replicas.
Proof. unfold enforceMax, decided. cbn. now destruct (_ && _). Qed.

Lemma handleReview_no_annotation req :
  fixedReplicasOverrideEnabled cfg = true ->
  fixedAnnotation req = None ->
  handleReview Atoi cvtOverflow cfg req =
    ([], inr (if (0 <? maxReplicasCount cfg)
                 && (maxReplicasCount cfg <? Replicas (Status req))
              then decided req true (maxReplicasCount cfg)
              else decided req false (Replicas (Status req)))).
Proof.
  intros Hen Hann. unfold handleReview. rewrite Hen, (fixedOverride_absent _ _ _ Hann).
  cbn. now rewrite final_clamp.
Qed.

Lemma handleReview_zero req :
  fixedReplicasOverrideEnabled cfg = false ->
  Replicas (Status req) = 0 ->
  handleReview Atoi cvtOverflow cfg req = ([], inr (decided req false 0)).
Proof.
  intros Hen Hz. unfold handleReview. rewrite Hen, Hz. cbn.
  rewrite final_clamp.
  destruct (Z.ltb_spec 0 (maxReplicasCount cfg)), (Z.ltb_spec (maxReplicasCount cfg) 0);
    cbn [andb]; try reflexivity; lia.
Qed.

Lemma handleReview_pinned req value v :
  fixedReplicasOverrideEnabled cfg = true ->
  fixedAnnotation req = Some value ->
  Atoi value = Some v ->
  0 <= v ->
  handleReview Atoi cvtOverflow cfg req =
    ([], inr (decided req true (clampMax (maxReplicasCount cfg) (Int32.wrap v)))).
Proof.
  intros Hen Hann Hv Hpos. unfold handleReview.
  rewrite Hen, (fixedOverride_present _ _ _ _ Hann), Hv.
  destruct (Z.ltb_spec v 0); [lia |]. cbn.
  rewrite final_clamp, <- clampMax_steps. now destruct (_ && _).
Qed.

Lemma handleReview_rooms req room :
  fixedReplicasOverrideEnabled cfg = false ->
  roomsOf req = Some room ->
  0 < Capacity room ->
  0 < Replicas (Status req) ->
  handleReview Atoi cvtOverflow cfg req =
    ([Div (of_Z (Count room)) capPerReplica; Log Info "Calculated capacityPerReplica"],
     inl (let target := capacityTarget cvtOverflow cfg (Count room) in
          decided req (negb (target =? Replicas (Status req))) target)).
Proof.
  intros Hen Hroom Hcap Hrep. unfold handleReview. rewrite Hen.
  destruct (Z.eqb_spec (Replicas (Status req)) 0); [lia |]. cbn [negb].
  rewrite (roomsCounter_usable _ _ _ _ _ Hroom Hcap Hrep). cbn.
  unfold decided. do 4 f_equal.
  destruct (Z.eqb_spec (capacityTarget cvtOverflow cfg (Count room)) (Replicas (Status req)))
    as [-> |]; reflexivity.
Qed.

Lemma handleReview_thresholds req :
  thresholdMode cfg req ->
  handleReview Atoi cvtOverflow cfg req =
    let division :=
      Div (of_Z (AllocatedReplicas (Status req))) (of_Z (Replicas (Status req))) in
    let current := Replicas (Status req) in
    if gtb (allocatedFraction req) (replicaUpperThreshold cfg) then
      ([division],
       inr (decided req true
              (clampMax (maxReplicasCount cfg) (upscaleTarget cvtOverflow cfg current))))
    else if ltb (allocatedFraction req) (replicaLowerThreshold cfg)
            && (minReplicasCount cfg <? current) then
      ([division; Div (of_Z current) (scaleFactor cfg)],
       inr (decided req true
              (clampMax (maxReplicasCount cfg) (downscaleTarget cvtOverflow cfg current))))
    else
      ([division],
       inr (if (0 <? maxReplicasCount cfg) && (maxReplicasCount cfg <? current)
            then decided req true (maxReplicasCount cfg)
            else decided req false current)).
Proof.
  intros (Hen & Hnz & Hu). unfold handleReview. rewrite Hen.
  destruct (Z.eqb_spec (Replicas (Status req)) 0); [lia |]. cbn [negb].
  rewrite (roomsCounter_unusable _ _ _ _ Hu), allocatedThresholds_eval.
  cbn zeta. destruct (gtb _ _); [| destruct (_ && _)]; cbn; rewrite final_clamp.
  - unfold clampMax.
    repeat match goal with |- context [?a <? ?b] => destruct (Z.ltb_spec a b) end;
      cbn [andb]; try reflexivity; lia.
  - rewrite <- clampMax_steps. now destruct (_ && _).
  - reflexivity.
Qed.
End Modes.

(** ** The claims about the scaling decision *)

Section Decision.
Variable Atoi : string -> option Z.
Variable cvtOverflow : float64 -> Z.
Variable cfg : Config.

(** C1, amended.  With the fixed override disabled, [currentReplicas > 0],
    the "rooms" counter present and its capacity positive, the handler is
    in capacity-counter mode: [baseDesired] is [ceil (count / 5.0)]
    clamped to [[minReplicas, maxReplicas-or-unbounded]], the target is
    [ceil (baseDesired * scaleFactor)] clamped again, [replicas] is the
    target and [scale] tells whether it differs from [currentReplicas].
    The only division executed is [count / 5.0] and the decision is the
    same for every pair of utilization thresholds.  ([ceil] is
    [math.Ceil] converted to [int32], the mathematical ceiling whenever
    that fits: [capacityTarget_exact].)  With the override enabled the
    mode is not entered, whether or not a [fixedReplicas] annotation is
    present: nothing is divided, the record of the mode is not logged,
    and the response and the effects are those for the same request
    without counters. *)
Theorem capacity_counter_mode req room :
  (fixedReplicasOverrideEnabled cfg = false ->
   0 < Replicas (Status req) ->
   roomsOf req = Some room ->
   0 < Capacity room ->
   let target := capacityTarget cvtOverflow cfg (Count room) in
   decision Atoi cvtOverflow cfg req =
     decided req (negb (target =? Replicas (Status req))) target /\
   effects Atoi cvtOverflow cfg req =
     [Div (of_Z (Count room)) capPerReplica; Log Info "Calculated capacityPerReplica"] /\
   forall upper lower,
     decision Atoi cvtOverflow
       (set_replicaUpperThreshold upper (set_replicaLowerThreshold lower cfg)) req =
     decision Atoi cvtOverflow cfg req) /\
  (fixedReplicasOverrideEnabled cfg = true ->
   (forall num den, Div num den ∉ effects Atoi cvtOverflow cfg req) /\
   (forall msg, Log Info msg ∉ effects Atoi cvtOverflow cfg req) /\
   responseOf (decision Atoi cvtOverflow cfg req) =
     responseOf (decision Atoi cvtOverflow cfg (withoutCounters req)) /\
   effects Atoi cvtOverflow cfg req =
     effects Atoi cvtOverflow cfg (withoutCounters req)).
Proof.
  split.
  - intros Hen Hrep Hroom Hcap target. unfold decision, effects.
    rewrite (handleReview_rooms _ _ _ _ _ Hen Hroom Hcap Hrep).
    split; [reflexivity | split; [reflexivity |]].
    intros upper lower.
    now rewrite (handleReview_rooms Atoi cvtOverflow
                   (set_replicaUpperThreshold upper (set_replicaLowerThreshold lower cfg))
                   req room Hen Hroom Hcap Hrep).
  - intros Hen. unfold decision, effects, handleReview. rewrite Hen.
    change (fixedOverride Atoi (withoutCounters req)) with (fixedOverride Atoi req).
    cbn [withoutCounters UID Status Replicas].
    destruct (fixedAnnotation req) as [value |] eqn:Hann.
    + rewrite (fixedOverride_present _ _ _ _ Hann).
      destruct (Atoi value) as [v |]; [destruct (v <? 0) |]; cbn;
        (split; [| split; [| split; reflexivity]]); intros; intros Hin;
        rewrite ?elem_of_cons, ?elem_of_nil in Hin; intuition discriminate.
    + rewrite (fixedOverride_absent _ _ _ Hann). cbn.
      (split; [| split; [| split; reflexivity]]); intros; intros Hin;
        now apply elem_of_nil in Hin.
Qed.

(** C2, amended.  With the override enabled and a [fixedReplicas]
    annotation that parses as an integer [v] with [0 <= v] that an
    [int32] can hold, the decision is [scale = true] (also when [v]
    equals [currentReplicas]) and [replicas = v], clamped to
    [maxReplicas] when that is set; nothing is divided or logged. *)
Theorem fixed_override_decision req value v :
  fixedReplicasOverrideEnabled cfg = true ->
  fixedAnnotation req = Some value ->
  Atoi value = Some v ->
  0 <= v <= Int32.max_int ->
  decision Atoi cvtOverflow cfg req =
    decided req true (clampMax (maxReplicasCount cfg) v) /\
  effects Atoi cvtOverflow cfg req = [].
Proof.
  intros Hen Hann Hv [Hpos Hmax]. unfold decision, effects.
  rewrite (handleReview_pinned _ _ _ _ _ _ Hen Hann Hv Hpos).
  replace (Int32.wrap v) with v; [split; reflexivity |].
  unfold Int32.wrap, Int32.max_int in *. rewrite Z.mod_small; lia.
Qed.

(** C3.  The handler answers with an [InvalidInput] rejection (status
    400) exactly when the override is enabled, the [fixedReplicas]
    annotation is present and its value is not a well-formed integer or
    is negative; a rejection carries no review, and every other request
    gets a Decision. *)
Theorem invalid_input_iff req :
  (rejected (decision Atoi cvtOverflow cfg req) <->
     fixedReplicasOverrideEnabled cfg = true /\
     exists value, fixedAnnotation req = Some value /\ invalidReplicas Atoi value) /\
  (forall review, ~ (rejected (decision Atoi cvtOverflow cfg req) /\
                     decision Atoi cvtOverflow cfg req = HttpJSON review)) /\
  (rejected (decision Atoi cvtOverflow cfg req) \/
   exists scale replicas, decision Atoi cvtOverflow cfg req = decided req scale replicas).
Proof.
  split; [| split].
  - split.
    + intros [msg Hrej].
      destruct (fixedReplicasOverrideEnabled cfg) eqn:Hen.
      * split; [reflexivity |].
        destruct (fixedAnnotation req) as [value |] eqn:Hann.
        -- exists value. split; [reflexivity |]. unfold invalidReplicas.
           destruct (Atoi value) as [v |] eqn:Hv; [| now left].
           right. exists v. split; [reflexivity |].
           destruct (Z.lt_ge_cases v 0) as [| Hpos]; [assumption | exfalso].
           unfold decision in Hrej.
           rewrite (handleReview_pinned _ _ _ _ _ _ Hen Hann Hv Hpos) in Hrej.
           discriminate Hrej.
        -- exfalso. unfold decision in Hrej.
           rewrite (handleReview_no_annotation _ _ _ _ Hen Hann) in Hrej.
           cbn in Hrej. destruct (_ && _); discriminate Hrej.
      * exfalso. unfold decision in Hrej.
        destruct (Z.eq_dec (Replicas (Status req)) 0) as [Hz | Hnz].
        -- rewrite (handleReview_zero _ _ _ _ Hen Hz) in Hrej. discriminate Hrej.
        -- destruct (capacityCounterUsable req) eqn:Hu.
           ++ unfold capacityCounterUsable in Hu.
              destruct (roomsOf req) as [room |] eqn:Hroom; [| discriminate].
              apply andb_prop in Hu as [Hc%Z.ltb_lt Hr%Z.ltb_lt].
              rewrite (handleReview_rooms _ _ _ _ _ Hen Hroom Hc Hr) in Hrej.
              discriminate Hrej.
           ++ rewrite (handleReview_thresholds Atoi cvtOverflow cfg req) in Hrej
                by (repeat split; assumption).
              cbn zeta in Hrej.
              destruct (gtb _ _); [| destruct (ltb _ _ && _)]; cbn in Hrej;
                try destruct (_ && _); discriminate Hrej.
    + intros (Hen & value & Hann & Hbad). unfold rejected, decision, handleReview.
      rewrite Hen, (fixedOverride_present _ _ _ _ Hann).
      destruct Hbad as [-> | (v & -> & Hneg)].
      * cbn. eauto.
      * destruct (Z.ltb_spec v 0); [| lia]. cbn. eauto.
  - intros review [[msg Hrej] Hjson]. congruence.
  - apply decision_shape.
Qed.

(** C4, amended.  In utilization-threshold mode, a fraction above
    [upperThreshold] gives [scale = true] and
    [replicas = ceil (currentReplicas * scaleFactor)] clamped to
    [maxReplicas] when that is set.  A fraction below [lowerThreshold]
    (itself below [upperThreshold]) with [currentReplicas > minReplicas]
    gives [scale = true] and [replicas = ceil (currentReplicas / scaleFactor)],
    clamped to [maxReplicas] when that is set, provided this ceiling is
    not below [minReplicas]. *)
Theorem threshold_scaling req :
  thresholdMode cfg req ->
  let current := Replicas (Status req) in
  (gtb (allocatedFraction req) (replicaUpperThreshold cfg) = true ->
     decision Atoi cvtOverflow cfg req =
       decided req true
         (clampMax (maxReplicasCount cfg) (upscaleTarget cvtOverflow cfg current))) /\
  (ltb (allocatedFraction req) (replicaLowerThreshold cfg) = true ->
   ltb (replicaLowerThreshold cfg) (replicaUpperThreshold cfg) = true ->
   minReplicasCount cfg < current ->
   minReplicasCount cfg <= downscaleTarget cvtOverflow cfg current ->
     decision Atoi cvtOverflow cfg req =
       decided req true
         (clampMax (maxReplicasCount cfg) (downscaleTarget cvtOverflow cfg current))).
Proof.
  intros Hmode current. unfold decision.
  rewrite (handleReview_thresholds Atoi cvtOverflow cfg req Hmode). cbn zeta.
  split.
  - now intros ->.
  - intros Hlow Hlu Hmin _.
    assert (Hup : gtb (allocatedFraction req) (replicaUpperThreshold cfg) = false).
    { apply ltb_asym. exact (ltb_trans _ _ _ Hlow Hlu). }
    rewrite Hup, Hlow. apply Z.ltb_lt in Hmin. fold current. now rewrite Hmin.
Qed.

(** C5.  Whenever a Decision is produced and [maxReplicas > 0], the
    returned [replicas] does not exceed [maxReplicas]. *)
Theorem replicas_at_most_max req review resp :
  0 < maxReplicasCount cfg ->
  decision Atoi cvtOverflow cfg req = HttpJSON review ->
  Response review = Some resp ->
  Resp_Replicas resp <= maxReplicasCount cfg.
Proof.
  intros Hmax Hdec Hresp.
  assert (Hclamp : forall x, clampMax (maxReplicasCount cfg) x <= maxReplicasCount cfg).
  { intros x. unfold clampMax. destruct (Z.ltb_spec 0 (maxReplicasCount cfg)); lia. }
  assert (Hfinal : forall scale x,
             (if (0 <? maxReplicasCount cfg) && (maxReplicasCount cfg <? x)
              then decided req true (maxReplicasCount cfg)
              else decided req scale x) = HttpJSON review ->
             Resp_Replicas resp <= maxReplicasCount cfg).
  { intros scale x.
    destruct (Z.ltb_spec 0 (maxReplicasCount cfg)); [| lia].
    destruct (Z.ltb_spec (maxReplicasCount cfg) x); cbn [andb];
      intros [= <-]; cbn in Hresp; injection Hresp as <-; cbn; lia. }
  assert (Hdecided : forall scale x,
             decided req scale (clampMax (maxReplicasCount cfg) x) = HttpJSON review ->
             Resp_Replicas resp <= maxReplicasCount cfg).
  { intros scale x [= <-]. cbn in Hresp. injection Hresp as <-. cbn. apply Hclamp. }
  unfold decision in Hdec.
  destruct (fixedReplicasOverrideEnabled cfg) eqn:Hen.
  - destruct (fixedAnnotation req) as [value |] eqn:Hann.
    + destruct (Atoi value) as [v |] eqn:Hv.
      * destruct (Z.lt_ge_cases v 0) as [Hneg | Hpos].
        -- unfold handleReview in Hdec.
           rewrite Hen, (fixedOverride_present _ _ _ _ Hann), Hv in Hdec.
           destruct (Z.ltb_spec v 0); [| lia]. discriminate Hdec.
        -- rewrite (handleReview_pinned _ _ _ _ _ _ Hen Hann Hv Hpos) in Hdec.
           exact (Hdecided _ _ Hdec).
      * unfold handleReview in Hdec.
        rewrite Hen, (fixedOverride_present _ _ _ _ Hann), Hv in Hdec.
        discriminate Hdec.
    + rewrite (handleReview_no_annotation _ _ _ _ Hen Hann) in Hdec.
      exact (Hfinal _ _ Hdec).
  - destruct (Z.eq_dec (Replicas (Status req)) 0) as [Hz | Hnz].
    + rewrite (handleReview_zero _ _ _ _ Hen Hz) in Hdec.
      injection Hdec as <-. cbn in Hresp. injection Hresp as <-. cbn. lia.
    + destruct (capacityCounterUsable req) eqn:Hu.
      * unfold capacityCounterUsable in Hu.
        destruct (roomsOf req) as [room |] eqn:Hroom; [| discriminate].
        apply andb_prop in Hu as [Hc%Z.ltb_lt Hr%Z.ltb_lt].
        rewrite (handleReview_rooms _ _ _ _ _ Hen Hroom Hc Hr) in Hdec.
        injection Hdec as <-. cbn in Hresp. injection Hresp as <-. cbn.
        unfold capacityTarget, clamp. cbn zeta.
        destruct (Z.ltb_spec 0 (maxReplicasCount cfg)); lia.
      * rewrite (handleReview_thresholds Atoi cvtOverflow cfg req) in Hdec
          by (repeat split; assumption).
        cbn zeta in Hdec.
        destruct (gtb _ _); [| destruct (ltb _ _ && _)]; cbn in Hdec;
          eauto using Hfinal, Hdecided.
Qed.

(** C6, amended.  In utilization-threshold mode with the fraction
    strictly between the thresholds, the decision is [scale = false] and
    [replicas = currentReplicas], unless [maxReplicas > 0] and
    [currentReplicas > maxReplicas]: then the final clamp answers
    [scale = true] and [replicas = maxReplicas]. *)
Theorem between_thresholds req :
  thresholdMode cfg req ->
  ltb (replicaLowerThreshold cfg) (allocatedFraction req) = true ->
  ltb (allocatedFraction req) (replicaUpperThreshold cfg) = true ->
  decision Atoi cvtOverflow cfg req =
    if (0 <? maxReplicasCount cfg) && (maxReplicasCount cfg <? Replicas (Status req))
    then decided req true (maxReplicasCount cfg)
    else decided req false (Replicas (Status req)).
Proof.
  intros Hmode Hlow Hup. unfold decision.
  rewrite (handleReview_thresholds Atoi cvtOverflow cfg req Hmode). cbn zeta.
  unfold gtb. fold (ltb (replicaUpperThreshold cfg) (allocatedFraction req)).
  now rewrite (ltb_asym _ _ Hup), (ltb_asym _ _ Hlow).
Qed.

(** C8.  With [currentReplicas = 0] and no applicable override, nothing
    is divided or logged, neither mode is evaluated and the decision is
    [scale = false] with [replicas = currentReplicas].  For every request,
    a division is only executed when [currentReplicas] is not zero; its
    divisor is [float64(currentReplicas)], the constant [5.0] or the
    scale factor, and the first two are finite and not zero.  The only
    error the handler signals is the 400 rejection. *)
Theorem zero_replicas_no_division req :
  (Replicas (Status req) = 0 ->
   ~ (fixedReplicasOverrideEnabled cfg = true /\ is_Some (fixedAnnotation req)) ->
     decision Atoi cvtOverflow cfg req = decided req false (Replicas (Status req)) /\
     effects Atoi cvtOverflow cfg req = []) /\
  (forall num den,
     Div num den ∈ effects Atoi cvtOverflow cfg req ->
     Replicas (Status req) <> 0 /\
     (den = of_Z (Replicas (Status req)) \/ den = capPerReplica
      \/ den = scaleFactor cfg) /\
     (Int32.in_range (Replicas (Status req)) = true ->
      den = scaleFactor cfg \/ exists s m e, den = S754_finite s m e)) /\
  (forall status msg,
     decision Atoi cvtOverflow cfg req = HttpError status msg ->
     status = StatusBadRequest) /\
  decision Atoi cvtOverflow cfg req <> Panic.
Proof.
  split; [| split; [| split]].
  - intros Hz Hno. unfold decision, effects.
    destruct (fixedReplicasOverrideEnabled cfg) eqn:Hen.
    + destruct (fixedAnnotation req) as [value |] eqn:Hann.
      * exfalso. apply Hno. split; [reflexivity | now exists value].
      * rewrite (handleReview_no_annotation _ _ _ _ Hen Hann), Hz. cbn.
        destruct (Z.ltb_spec 0 (maxReplicasCount cfg)),
          (Z.ltb_spec (maxReplicasCount cfg) 0); cbn; try lia; now split.
    + rewrite (handleReview_zero _ _ _ _ Hen Hz), Hz. now split.
  - intros num den Hin.
    assert (Hden : Replicas (Status req) <> 0 /\
              (den = of_Z (Replicas (Status req)) \/ den = capPerReplica
               \/ den = scaleFactor cfg));
      [| destruct Hden as [Hnz Hden]; split; [exact Hnz | split; [exact Hden |]];
         intros Hrange; destruct Hden as [-> | [-> | ->]];
         [right; apply of_Z_finite; [exact Hnz |];
          unfold Int32.in_range, Int32.min_int, Int32.max_int in Hrange;
          apply andb_prop in Hrange as [H1%Z.leb_le H2%Z.leb_le]; lia
         | right; now eexists _, _, _
         | now left]].
    revert Hin. unfold effects.
    destruct (fixedReplicasOverrideEnabled cfg) eqn:Hen.
    + unfold handleReview. rewrite Hen.
      destruct (fixedAnnotation req) as [value |] eqn:Hann.
      * rewrite (fixedOverride_present _ _ _ _ Hann).
        destruct (Atoi value) as [v |]; [destruct (v <? 0) |]; cbn;
          rewrite ?elem_of_cons, ?elem_of_nil; intuition discriminate.
      * rewrite (fixedOverride_absent _ _ _ Hann). cbn.
        now rewrite elem_of_nil.
    + destruct (Z.eq_dec (Replicas (Status req)) 0) as [Hz | Hnz].
      * rewrite (handleReview_zero _ _ _ _ Hen Hz). cbn. now rewrite elem_of_nil.
      * destruct (capacityCounterUsable req) eqn:Hu.
        -- unfold capacityCounterUsable in Hu.
           destruct (roomsOf req) as [room |] eqn:Hroom; [| discriminate].
           apply andb_prop in Hu as [Hc%Z.ltb_lt Hr%Z.ltb_lt].
           rewrite (handleReview_rooms _ _ _ _ _ Hen Hroom Hc Hr). cbn.
           intros Hin. apply elem_of_cons in Hin as [Heq | Hin].
           ++ injection Heq as _ ->. auto.
           ++ apply elem_of_cons in Hin as [Heq | Hin]; [discriminate |].
              now apply elem_of_nil in Hin.
        -- rewrite (handleReview_thresholds Atoi cvtOverflow cfg req)
             by (repeat split; assumption).
           cbn zeta.
           destruct (gtb _ _); [| destruct (ltb _ _ && _)]; cbn;
             rewrite ?elem_of_cons, elem_of_nil; intuition congruence.
  - intros status msg Hdec.
    destruct (decision_shape Atoi cvtOverflow cfg req)
      as [[msg' Hrej] | (scale & replicas & Hok)]; unfold decided in *; congruence.
  - destruct (decision_shape Atoi cvtOverflow cfg req)
      as [[msg' Hrej] | (scale & replicas & Hok)]; unfold decided in *; congruence.
Qed.

(** C9.  With the override enabled and no [fixedReplicas] annotation
    (the annotations map may be nil), neither mode is evaluated: nothing
    is divided or logged, and the decision is [scale = false] with
    [replicas = currentReplicas], but for the final clamp when
    [maxReplicas > 0] and [currentReplicas > maxReplicas]. *)
Theorem enabled_override_without_annotation req :
  fixedReplicasOverrideEnabled cfg = true ->
  fixedAnnotation req = None ->
  decision Atoi cvtOverflow cfg req =
    (if (0 <? maxReplicasCount cfg) && (maxReplicasCount cfg <? Replicas (Status req))
     then decided req true (maxReplicasCount cfg)
     else decided req false (Replicas (Status req))) /\
  effects Atoi cvtOverflow cfg req = [].
Proof.
  intros Hen Hann. unfold decision, effects.
  now rewrite (handleReview_no_annotation _ _ _ _ Hen Hann).
Qed.
End Decision.

(** ** The claims about configuration loading *)

Lemma M_bind_ext {R A B} (m : M R A) (f f' : A -> M R B) :
  (forall a, f a = f' a) -> m ≫= f = m ≫= f'.
Proof.
  intros Hf. destruct m as [l [r | a]]; cbn; [reflexivity |]. now rewrite Hf.
Qed.

Lemma M_bind_ext_on {R A B} (m : M R A) (f f' : A -> M R B) :
  (forall a, m.2 = inr a -> f a = f' a) -> m ≫= f = m ≫= f'.
Proof.
  intros Hf. destruct m as [l [r | a]]; cbn; [reflexivity |]. now rewrite Hf.
Qed.

Lemma Getenv_delete_eq (env : gmap string string) (key : string) :
  Getenv (delete key env) key = "".
Proof. unfold Getenv. now rewrite lookup_delete_eq. Qed.

Lemma Getenv_delete_ne (env : gmap string string) (k key : string) :
  k <> key -> Getenv (delete k env) key = Getenv env key.
Proof. intros Hne. unfold Getenv. now rewrite lookup_delete_ne. Qed.

Section Loading.
Variable ParseFloat : string -> option float64.
Variable ParseInt : string -> option Z.

(** Each reader terminates the process when its variable is set and does
    not parse, and otherwise returns package variables without logging. *)
Ltac reader_cases :=
  unfold unparsable;
  match goal with
  | |- context [String.eqb (Getenv ?env ?key) ""] =>
      destruct (String.eqb_spec (Getenv env key) "") as [Hempty | Hset]
  end; cbn;
  [ right; split; [intros [Hne _]; congruence | eexists; reflexivity]
  | match goal with
    | |- context [match ?p with Some _ => _ | None => _ end] =>
        destruct p eqn:Hparse; cbn;
        [ right; split; [intros [_ Hnone]; congruence |];
          match goal with |- context [if ?c then _ else _] => destruct c end;
          eexists; reflexivity
        | left; split; [now split | eexists; reflexivity] ]
    end ].

Lemma readScaleFactor_cases env g :
  (unparsable ParseFloat env "SCALE_FACTOR" /\
   exists l, readScaleFactor ParseFloat env g = (l, inl 1)) \/
  (~ unparsable ParseFloat env "SCALE_FACTOR" /\
   exists g', readScaleFactor ParseFloat env g = ([], inr g')).
Proof. unfold readScaleFactor. reader_cases. Qed.

Lemma readUpscaleTrigger_cases env g :
  (unparsable ParseFloat env "REPLICA_UPSCALE_TRIGGER" /\
   exists l, readUpscaleTrigger ParseFloat env g = (l, inl 1)) \/
  (~ unparsable ParseFloat env "REPLICA_UPSCALE_TRIGGER" /\
   exists g', readUpscaleTrigger ParseFloat env g = ([], inr g')).
Proof. unfold readUpscaleTrigger. reader_cases. Qed.

Lemma readDownscaleTrigger_cases env g :
  (unparsable ParseFloat env "REPLICA_DOWNSCALE_TRIGGER" /\
   exists l, readDownscaleTrigger ParseFloat env g = (l, inl 1)) \/
  (~ unparsable ParseFloat env "REPLICA_DOWNSCALE_TRIGGER" /\
   exists g', readDownscaleTrigger ParseFloat env g = ([], inr g')).
Proof. unfold readDownscaleTrigger. reader_cases. Qed.

Lemma readMinReplicas_cases env g :
  (unparsable ParseInt env "MIN_REPLICAS_COUNT" /\
   exists l, readMinReplicas ParseInt env g = (l, inl 1)) \/
  (~ unparsable ParseInt env "MIN_REPLICAS_COUNT" /\
   exists g', readMinReplicas ParseInt env g = ([], inr g')).
Proof. unfold readMinReplicas. reader_cases. Qed.

Lemma readMaxReplicas_cases env g :
  (unparsable ParseInt env "MAX_REPLICAS_COUNT" /\
   exists l, readMaxReplicas ParseInt env g = (l, inl 1)) \/
  (~ unparsable ParseInt env "MAX_REPLICAS_COUNT" /\
   exists g', readMaxReplicas ParseInt env g = ([], inr g')).
Proof. unfold readMaxReplicas. reader_cases. Qed.

Lemma readFixedReplicas_returns env g :
  exists l g', readFixedReplicas env g = (l, inr g').
Proof.
  unfold readFixedReplicas.
  destruct (negb _); [destruct (String.eqb _ "true") |]; cbn; eauto.
Qed.

Lemma adjustMinReplicas_returns g :
  exists l g', adjustMinReplicas g = (l, inr g').
Proof. unfold adjustMinReplicas. destruct (_ && _); cbn; eauto. Qed.

(** The loader exits with status 1 when one of the five parsed variables
    is set and does not parse, and returns otherwise. *)
Lemma getEnvVariables_cases env g :
  let bad :=
    unparsable ParseFloat env "SCALE_FACTOR" \/
    unparsable ParseFloat env "REPLICA_UPSCALE_TRIGGER" \/
    unparsable ParseFloat env "REPLICA_DOWNSCALE_TRIGGER" \/
    unparsable ParseInt env "MIN_REPLICAS_COUNT" \/
    unparsable ParseInt env "MAX_REPLICAS_COUNT" in
  (bad /\ exited (getEnvVariables ParseFloat ParseInt env g)) \/
  (~ bad /\ exists l g', getEnvVariables ParseFloat ParseInt env g = (l, inr g')).
Proof.
  unfold getEnvVariables, exited. cbn zeta.
  destruct (readScaleFactor_cases env g) as [[Hu [l1 ->]] | [H1 [g1 ->]]];
    cbn; [tauto |].
  destruct (readUpscaleTrigger_cases env g1) as [[Hu [l2 ->]] | [H2 [g2 ->]]];
    cbn; [tauto |].
  destruct (readDownscaleTrigger_cases env g2) as [[Hu [l3 ->]] | [H3 [g3 ->]]];
    cbn; [tauto |].
  destruct (readMinReplicas_cases env g3) as [[Hu [l4 ->]] | [H4 [g4 ->]]];
    cbn; [tauto |].
  destruct (readMaxReplicas_cases env g4) as [[Hu [l5 ->]] | [H5 [g5 ->]]];
    cbn; [tauto |].
  destruct (readFixedReplicas_returns env g5) as (l6 & g6 & ->). cbn.
  destruct (adjustMinReplicas_returns (adjustLowerThreshold g6)) as (l7 & g7 & ->).
  cbn. right. split; [tauto | eauto].
Qed.

(** A reader whose variable was removed from the environment does
    nothing, and the other readers do not notice the removal. *)
Lemma readScaleFactor_delete env k g :
  readScaleFactor ParseFloat (delete k env) g =
    if decide (k = "SCALE_FACTOR") then mret g else readScaleFactor ParseFloat env g.
Proof.
  unfold readScaleFactor. case_decide as Hk.
  - subst k. now rewrite Getenv_delete_eq.
  - now rewrite (Getenv_delete_ne _ _ _ Hk).
Qed.

Lemma readUpscaleTrigger_delete env k g :
  readUpscaleTrigger ParseFloat (delete k env) g =
    if decide (k = "REPLICA_UPSCALE_TRIGGER") then mret g
    else readUpscaleTrigger ParseFloat env g.
Proof.
  unfold readUpscaleTrigger. case_decide as Hk.
  - subst k. now rewrite Getenv_delete_eq.
  - now rewrite (Getenv_delete_ne _ _ _ Hk).
Qed.

Lemma readDownscaleTrigger_delete env k g :
  readDownscaleTrigger ParseFloat (delete k env) g =
    if decide (k = "REPLICA_DOWNSCALE_TRIGGER") then mret g
    else readDownscaleTrigger ParseFloat env g.
Proof.
  unfold readDownscaleTrigger. case_decide as Hk.
  - subst k. now rewrite Getenv_delete_eq.
  - now rewrite (Getenv_delete_ne _ _ _ Hk).
Qed.

Lemma readMinReplicas_delete env k g :
  readMinReplicas ParseInt (delete k env) g =
    if decide (k = "MIN_REPLICAS_COUNT") then mret g
    else readMinReplicas ParseInt env g.
Proof.
  unfold readMinReplicas. case_decide as Hk.
  - subst k. now rewrite Getenv_delete_eq.
  - now rewrite (Getenv_delete_ne _ _ _ Hk).
Qed.

Lemma readMaxReplicas_delete env k g :
  readMaxReplicas ParseInt (delete k env) g =
    if decide (k = "MAX_REPLICAS_COUNT") then mret g
    else readMaxReplicas ParseInt env g.
Proof.
  unfold readMaxReplicas. case_decide as Hk.
  - subst k. now rewrite Getenv_delete_eq.
  - now rewrite (Getenv_delete_ne _ _ _ Hk).
Qed.

Lemma readFixedReplicas_delete env k g :
  k <> "FIXED_REPLICAS" ->
  readFixedReplicas (delete k env) g = readFixedReplicas env g.
Proof.
  intros Hk. unfold readFixedReplicas. now rewrite (Getenv_delete_ne _ _ _ Hk).
Qed.

(** A value that parses and fails its range check leaves the reader with
    nothing to do. *)
Lemma readScaleFactor_discards env g factor :
  ParseFloat (Getenv env "SCALE_FACTOR") = Some factor ->
  gtb factor (of_Z 1) = false ->
  readScaleFactor ParseFloat env g = mret g.
Proof.
  intros Hp Hc. unfold readScaleFactor. rewrite Hp, Hc. now destruct (negb _).
Qed.

Lemma readUpscaleTrigger_discards env g trigger :
  ParseFloat (Getenv env "REPLICA_UPSCALE_TRIGGER") = Some trigger ->
  gtb trigger (of_ratio 1 10) = false ->
  readUpscaleTrigger ParseFloat env g = mret g.
Proof.
  intros Hp Hc. unfold readUpscaleTrigger. rewrite Hp, Hc. now destruct (negb _).
Qed.

Lemma readDownscaleTrigger_discards env g trigger :
  ParseFloat (Getenv env "REPLICA_DOWNSCALE_TRIGGER") = Some trigger ->
  ltb trigger (Float64.div (replicaUpperThreshold g) (scaleFactor g)) = false ->
  readDownscaleTrigger ParseFloat env g = mret g.
Proof.
  intros Hp Hc. unfold readDownscaleTrigger. rewrite Hp, Hc. now destruct (negb _).
Qed.

Lemma readMinReplicas_discards env g n :
  ParseInt (Getenv env "MIN_REPLICAS_COUNT") = Some n ->
  n < 0 ->
  readMinReplicas ParseInt env g = mret g.
Proof.
  intros Hp Hc. unfold readMinReplicas. rewrite Hp.
  destruct (Z.leb_spec 0 n); [lia |]. now destruct (negb _).
Qed.

Lemma readMaxReplicas_discards env g n :
  ParseInt (Getenv env "MAX_REPLICAS_COUNT") = Some n ->
  n < 0 ->
  readMaxReplicas ParseInt env g = mret g.
Proof.
  intros Hp Hc. unfold readMaxReplicas. rewrite Hp.
  destruct (Z.leb_spec 0 n); [lia |]. now destruct (negb _).
Qed.

Lemma triggersRead_result env g g1 g2 :
  (readScaleFactor ParseFloat env g).2 = inr g1 ->
  (readUpscaleTrigger ParseFloat env g1).2 = inr g2 ->
  exists l, triggersRead ParseFloat env g = (l, inr g2).
Proof.
  unfold triggersRead.
  destruct (readScaleFactor ParseFloat env g) as [l1 [code | g1']]; cbn; [discriminate |].
  intros [= ->].
  destruct (readUpscaleTrigger ParseFloat env g1) as [l2 [code | g2']]; cbn;
    [discriminate |].
  intros [= ->]. eauto.
Qed.

Ltac removed :=
  rewrite ?readScaleFactor_delete, ?readUpscaleTrigger_delete,
    ?readDownscaleTrigger_delete, ?readMinReplicas_delete, ?readMaxReplicas_delete,
    ?readFixedReplicas_delete by discriminate;
  repeat (case_decide; [try discriminate | try congruence]).

Ltac next_reader := removed; apply M_bind_ext; intros ?.
Ltac same_rest := repeat (removed; try reflexivity; apply M_bind_ext; intros ?).

(** C10.  [getEnvVariables] terminates the process, with status 1,
    exactly when one of [SCALE_FACTOR], [REPLICA_UPSCALE_TRIGGER],
    [REPLICA_DOWNSCALE_TRIGGER], [MIN_REPLICAS_COUNT] and
    [MAX_REPLICAS_COUNT] is set and does not parse.  A value that parses
    and fails its range check ([SCALE_FACTOR] not above 1,
    [REPLICA_UPSCALE_TRIGGER] not above 0.1, [REPLICA_DOWNSCALE_TRIGGER]
    not below [upperThreshold / scaleFactor], a negative count) is
    discarded without a trace: the loader logs, exits and leaves the
    package variables exactly as if the variable were not set.  (A value
    at or below a bound is not above it: [leb_not_gtb].) *)
Theorem range_failures_are_discarded env g :
  (exited (getEnvVariables ParseFloat ParseInt env g) <->
     unparsable ParseFloat env "SCALE_FACTOR" \/
     unparsable ParseFloat env "REPLICA_UPSCALE_TRIGGER" \/
     unparsable ParseFloat env "REPLICA_DOWNSCALE_TRIGGER" \/
     unparsable ParseInt env "MIN_REPLICAS_COUNT" \/
     unparsable ParseInt env "MAX_REPLICAS_COUNT") /\
  (exited (getEnvVariables ParseFloat ParseInt env g) \/
   exists l g', getEnvVariables ParseFloat ParseInt env g = (l, inr g')) /\
  (forall factor,
     ParseFloat (Getenv env "SCALE_FACTOR") = Some factor ->
     gtb factor (of_Z 1) = false ->
     getEnvVariables ParseFloat ParseInt env g =
       getEnvVariables ParseFloat ParseInt (delete "SCALE_FACTOR" env) g) /\
  (forall trigger,
     ParseFloat (Getenv env "REPLICA_UPSCALE_TRIGGER") = Some trigger ->
     gtb trigger (of_ratio 1 10) = false ->
     getEnvVariables ParseFloat ParseInt env g =
       getEnvVariables ParseFloat ParseInt (delete "REPLICA_UPSCALE_TRIGGER" env) g) /\
  (forall trigger,
     ParseFloat (Getenv env "REPLICA_DOWNSCALE_TRIGGER") = Some trigger ->
     (forall l g', triggersRead ParseFloat env g = (l, inr g') ->
        ltb trigger (Float64.div (replicaUpperThreshold g') (scaleFactor g')) = false) ->
     getEnvVariables ParseFloat ParseInt env g =
       getEnvVariables ParseFloat ParseInt (delete "REPLICA_DOWNSCALE_TRIGGER" env) g) /\
  (forall n,
     ParseInt (Getenv env "MIN_REPLICAS_COUNT") = Some n ->
     n < 0 ->
     getEnvVariables ParseFloat ParseInt env g =
       getEnvVariables ParseFloat ParseInt (delete "MIN_REPLICAS_COUNT" env) g) /\
  (forall n,
     ParseInt (Getenv env "MAX_REPLICAS_COUNT") = Some n ->
     n < 0 ->
     getEnvVariables ParseFloat ParseInt env g =
       getEnvVariables ParseFloat ParseInt (delete "MAX_REPLICAS_COUNT" env) g).
Proof.
  split.
  { destruct (getEnvVariables_cases env g) as [[Hbad Hex] | [Hok (l & g' & Hrun)]].
    - tauto.
    - split; [| tauto]. unfold exited. rewrite Hrun. discriminate. }
  split.
  { destruct (getEnvVariables_cases env g) as [[Hbad Hex] | [Hok (l & g' & Hrun)]];
      eauto. }
  split; [| split; [| split; [| split]]].
  - intros factor Hp Hc. unfold getEnvVariables.
    rewrite (readScaleFactor_discards _ _ _ Hp Hc). same_rest.
  - intros trigger Hp Hc. unfold getEnvVariables.
    next_reader.
    rewrite (readUpscaleTrigger_discards _ _ _ Hp Hc). same_rest.
  - intros trigger Hp Hc. unfold getEnvVariables.
    removed. apply M_bind_ext_on; intros g1 H1.
    removed. apply M_bind_ext_on; intros g2 H2.
    destruct (triggersRead_result _ _ _ _ H1 H2) as [l Hread].
    rewrite (readDownscaleTrigger_discards _ _ _ Hp (Hc _ _ Hread)). same_rest.
  - intros n Hp Hc. unfold getEnvVariables.
    do 3 next_reader.
    rewrite (readMinReplicas_discards _ _ _ Hp Hc). same_rest.
  - intros n Hp Hc. unfold getEnvVariables.
    do 4 next_reader.
    rewrite (readMaxReplicas_discards _ _ _ Hp Hc). same_rest.
Qed.
End Loading.

(** ** The claims on concrete requests *)

(** C1 holds at the spec's scenario of fifty rooms on ten replicas: with
    the default scale factor the target is twenty, and with the override
    enabled the counter makes no difference. *)
Lemma capacity_counter_mode_witness :
  (fixedReplicasOverrideEnabled defaults = false /\
   0 < Replicas (Status rooms_half_full) /\
   roomsOf rooms_half_full = Some {| Count := 50; Capacity := 100 |} /\
   decision Strconv.Atoi amd64_cvtOverflow defaults rooms_half_full =
     decided rooms_half_full true 20) /\
  (fixedReplicasOverrideEnabled override_enabled = true /\
   responseOf (decision Strconv.Atoi amd64_cvtOverflow override_enabled rooms_half_full) =
     responseOf (decision Strconv.Atoi amd64_cvtOverflow override_enabled
                   (withoutCounters rooms_half_full)) /\
   effects Strconv.Atoi amd64_cvtOverflow override_enabled rooms_half_full =
     effects Strconv.Atoi amd64_cvtOverflow override_enabled
       (withoutCounters rooms_half_full)).
Proof.
  split.
  - do 3 (split; [reflexivity |]).
    exact (proj1 (proj1 (capacity_counter_mode Strconv.Atoi amd64_cvtOverflow defaults
                           rooms_half_full {| Count := 50; Capacity := 100 |})
                    eq_refl eq_refl eq_refl eq_refl)).
  - split; [reflexivity |].
    exact (proj2 (proj2 (proj2 (capacity_counter_mode Strconv.Atoi amd64_cvtOverflow
                                  override_enabled rooms_half_full
                                  {| Count := 50; Capacity := 100 |})
                           eq_refl))).
Defined.

(** C1 as stated fails when the override is enabled and the request has no
    annotation: the counter is present with positive capacity, yet the
    handler answers "no scale" where capacity-counter mode would answer
    [scale = true], [replicas = 20]. *)
Lemma capacity_counter_mode_counterexample :
  fixedReplicasOverrideEnabled override_enabled = true /\
  fixedAnnotation rooms_half_full = None /\
  Replicas (Status rooms_half_full) <> 0 /\
  roomsOf rooms_half_full = Some {| Count := 50; Capacity := 100 |} /\
  capacityTarget amd64_cvtOverflow override_enabled 50 = 20 /\
  decision Strconv.Atoi amd64_cvtOverflow override_enabled rooms_half_full =
    decided rooms_half_full false 10 /\
  decision Strconv.Atoi amd64_cvtOverflow override_enabled rooms_half_full <>
    decided rooms_half_full (negb (20 =? 10)) 20.
Proof.
  repeat split; try reflexivity; try discriminate.
Qed.

(** C2 holds at an operator asking for three replicas. *)
Lemma fixed_override_decision_witness :
  fixedReplicasOverrideEnabled override_enabled = true /\
  fixedAnnotation pinned_at_three = Some "3" /\
  Strconv.Atoi "3" = Some 3 /\
  0 <= 3 <= Int32.max_int /\
  decision Strconv.Atoi amd64_cvtOverflow override_enabled pinned_at_three =
    decided pinned_at_three true 3.
Proof.
  do 3 (split; [reflexivity |]).
  split; [split; discriminate |].
  exact (proj1 (fixed_override_decision Strconv.Atoi amd64_cvtOverflow override_enabled
                  pinned_at_three "3" 3 eq_refl eq_refl eq_refl
                  (conj (proj1 (Z.leb_le 0 3) eq_refl)
                        (proj1 (Z.leb_le 3 Int32.max_int) eq_refl)))).
Defined.

(** C2 as stated fails when the requested count equals [currentReplicas]:
    the handler answers [scale = true] where [v != currentReplicas] is
    false. *)
Lemma fixed_override_decision_counterexample :
  fixedReplicasOverrideEnabled override_enabled = true /\
  fixedAnnotation pinned_at_three = Some "3" /\
  Strconv.Atoi "3" = Some 3 /\
  Replicas (Status pinned_at_three) = 3 /\
  decision Strconv.Atoi amd64_cvtOverflow override_enabled pinned_at_three =
    decided pinned_at_three true 3 /\
  decision Strconv.Atoi amd64_cvtOverflow override_enabled pinned_at_three <>
    decided pinned_at_three (negb (3 =? Replicas (Status pinned_at_three))) 3.
Proof.
  repeat split; try reflexivity; discriminate.
Qed.

(** C4 holds at the spec's scenarios A (ten replicas, eight allocated: up
    to twenty) and B (ten replicas, two allocated: down to five). *)
Lemma threshold_scaling_witness :
  (thresholdMode defaults (fleet 10 8 None None) /\
   gtb (allocatedFraction (fleet 10 8 None None)) (replicaUpperThreshold defaults) = true /\
   decision Strconv.Atoi amd64_cvtOverflow defaults (fleet 10 8 None None) =
     decided (fleet 10 8 None None) true 20) /\
  (thresholdMode defaults (fleet 10 2 None None) /\
   ltb (allocatedFraction (fleet 10 2 None None)) (replicaLowerThreshold defaults) = true /\
   ltb (replicaLowerThreshold defaults) (replicaUpperThreshold defaults) = true /\
   minReplicasCount defaults < 10 /\
   minReplicasCount defaults <= downscaleTarget amd64_cvtOverflow defaults 10 /\
   decision Strconv.Atoi amd64_cvtOverflow defaults (fleet 10 2 None None) =
     decided (fleet 10 2 None None) true 5).
Proof.
  assert (Hmode : forall a, thresholdMode defaults (fleet 10 a None None)).
  { intros a. repeat split. discriminate. }
  split.
  - split; [apply Hmode |]. split; [reflexivity |].
    exact (proj1 (threshold_scaling Strconv.Atoi amd64_cvtOverflow defaults
                    (fleet 10 8 None None) (Hmode 8)) eq_refl).
  - split; [apply Hmode |]. do 3 (split; [reflexivity |]). split; [discriminate |].
    exact (proj2 (threshold_scaling Strconv.Atoi amd64_cvtOverflow defaults
                    (fleet 10 2 None None) (Hmode 2))
             eq_refl eq_refl eq_refl (proj1 (Z.leb_le 2 5) eq_refl)).
Defined.

(** C4 as stated fails on a down-scale from above [maxReplicas]: twenty
    replicas with one allocated and [maxReplicas = 6] are answered with
    six, where [ceil (20 / 2)] clamped up to [minReplicas = 2] is ten. *)
Lemma threshold_scaling_counterexample :
  thresholdMode at_most_six (fleet 20 1 None None) /\
  ltb (allocatedFraction (fleet 20 1 None None)) (replicaLowerThreshold at_most_six) = true /\
  minReplicasCount at_most_six < 20 /\
  Z.max (minReplicasCount at_most_six) (downscaleTarget amd64_cvtOverflow at_most_six 20) = 10 /\
  decision Strconv.Atoi amd64_cvtOverflow at_most_six (fleet 20 1 None None) =
    decided (fleet 20 1 None None) true 6 /\
  decision Strconv.Atoi amd64_cvtOverflow at_most_six (fleet 20 1 None None) <>
    decided (fleet 20 1 None None) true 10.
Proof.
  repeat split; try reflexivity; discriminate.
Qed.

(** C5 holds at the spec's scenario C: four replicas, three allocated and
    [maxReplicas = 6] give six, not eight. *)
Lemma replicas_at_most_max_witness :
  0 < maxReplicasCount at_most_six /\
  decision Strconv.Atoi amd64_cvtOverflow at_most_six (fleet 4 3 None None) =
    decided (fleet 4 3 None None) true 6 /\
  6 <= maxReplicasCount at_most_six.
Proof.
  do 2 (split; [reflexivity |]).
  exact (replicas_at_most_max Strconv.Atoi amd64_cvtOverflow at_most_six
           (fleet 4 3 None None) _ _ eq_refl eq_refl eq_refl).
Defined.

(** C6 holds at ten replicas with five allocated and no maximum. *)
Lemma between_thresholds_witness :
  thresholdMode defaults (fleet 10 5 None None) /\
  ltb (replicaLowerThreshold defaults) (allocatedFraction (fleet 10 5 None None)) = true /\
  ltb (allocatedFraction (fleet 10 5 None None)) (replicaUpperThreshold defaults) = true /\
  decision Strconv.Atoi amd64_cvtOverflow defaults (fleet 10 5 None None) =
    decided (fleet 10 5 None None) false 10.
Proof.
  assert (Hmode : thresholdMode defaults (fleet 10 5 None None)).
  { repeat split. discriminate. }
  split; [exact Hmode |]. do 2 (split; [reflexivity |]).
  exact (between_thresholds Strconv.Atoi amd64_cvtOverflow defaults
           (fleet 10 5 None None) Hmode eq_refl eq_refl).
Defined.

(** C6 as stated fails when [currentReplicas] exceeds [maxReplicas]: ten
    replicas with five allocated and [maxReplicas = 6] are answered with
    [scale = true], [replicas = 6]. *)
Lemma between_thresholds_counterexample :
  thresholdMode at_most_six (fleet 10 5 None None) /\
  ltb (replicaLowerThreshold at_most_six) (allocatedFraction (fleet 10 5 None None)) = true /\
  ltb (allocatedFraction (fleet 10 5 None None)) (replicaUpperThreshold at_most_six) = true /\
  decision Strconv.Atoi amd64_cvtOverflow at_most_six (fleet 10 5 None None) =
    decided (fleet 10 5 None None) true 6 /\
  decision Strconv.Atoi amd64_cvtOverflow at_most_six (fleet 10 5 None None) <>
    decided (fleet 10 5 None None) false 10.
Proof.
  repeat split; try reflexivity; discriminate.
Qed.

(** C8 holds at an empty fleet, with the override disabled and with it
    enabled but no annotation. *)
Lemma zero_replicas_no_division_witness :
  (decision Strconv.Atoi amd64_cvtOverflow defaults (fleet 0 0 None None) =
     decided (fleet 0 0 None None) false 0 /\
   effects Strconv.Atoi amd64_cvtOverflow defaults (fleet 0 0 None None) = []) /\
  (decision Strconv.Atoi amd64_cvtOverflow override_enabled (fleet 0 0 None None) =
     decided (fleet 0 0 None None) false 0 /\
   effects Strconv.Atoi amd64_cvtOverflow override_enabled (fleet 0 0 None None) = []).
Proof.
  split.
  - refine (proj1 (zero_replicas_no_division Strconv.Atoi amd64_cvtOverflow defaults
                     (fleet 0 0 None None)) eq_refl _).
    intros [Hen _]. discriminate Hen.
  - refine (proj1 (zero_replicas_no_division Strconv.Atoi amd64_cvtOverflow override_enabled
                     (fleet 0 0 None None)) eq_refl _).
    intros [_ [value Hann]]. discriminate Hann.
Defined.

(** C9 holds at ten replicas, eight of them allocated: the enabled
    override without annotation leaves the fleet alone. *)
Lemma enabled_override_without_annotation_witness :
  fixedReplicasOverrideEnabled override_enabled = true /\
  fixedAnnotation (fleet 10 8 None None) = None /\
  decision Strconv.Atoi amd64_cvtOverflow override_enabled (fleet 10 8 None None) =
    decided (fleet 10 8 None None) false 10 /\
  effects Strconv.Atoi amd64_cvtOverflow override_enabled (fleet 10 8 None None) = [].
Proof.
  do 2 (split; [reflexivity |]).
  exact (enabled_override_without_annotation Strconv.Atoi amd64_cvtOverflow override_enabled
           (fleet 10 8 None None) eq_refl eq_refl).
Defined.

(** C7 fails on the program.  Under [SCALE_FACTOR=1.3] and
    [REPLICA_DOWNSCALE_TRIGGER=0.52] the loader keeps both values (the
    trigger is below [0.7 / 1.3], so the normalization leaves it alone).
    Four replicas with three allocated are above the upper threshold and
    scale up to [ceil (4 * 1.3) = 6]; six replicas with the same three
    allocated are at [0.5], below the lower threshold, and scale down to
    [ceil (6 / 1.3) = 5]. *)
Theorem upscale_then_downscale :
  getEnvVariables Strconv.ParseFloat Strconv.ParseInt32 gentle_env defaults =
    ([], inr gentle) /\
  adjustLowerThreshold gentle = gentle /\
  gtb (allocatedFraction (fleet 4 3 None None)) (replicaUpperThreshold gentle) = true /\
  decision Strconv.Atoi amd64_cvtOverflow gentle (fleet 4 3 None None) =
    decided (fleet 4 3 None None) true 6 /\
  ltb (allocatedFraction (fleet 6 3 None None)) (replicaLowerThreshold gentle) = true /\
  minReplicasCount gentle < 6 /\
  decision Strconv.Atoi amd64_cvtOverflow gentle (fleet 6 3 None None) =
    decided (fleet 6 3 None None) true 5.
Proof.
  repeat split; vm_compute; reflexivity.
Qed.

(** C10 holds at an environment whose five values parse and fail their
    checks: the loader does not exit, and [SCALE_FACTOR=0.5] might as well
    not be set. *)
Lemma range_failures_are_discarded_witness :
  Strconv.ParseFloat (Getenv out_of_range_env "SCALE_FACTOR") = Some (of_ratio 1 2) /\
  gtb (of_ratio 1 2) (of_Z 1) = false /\
  getEnvVariables Strconv.ParseFloat Strconv.ParseInt32 out_of_range_env defaults =
    getEnvVariables Strconv.ParseFloat Strconv.ParseInt32
      (delete "SCALE_FACTOR" out_of_range_env) defaults.
Proof.
  do 2 (split; [reflexivity |]).
  exact (proj1 (proj2 (proj2 (range_failures_are_discarded Strconv.ParseFloat
                                Strconv.ParseInt32 out_of_range_env defaults)))
           (of_ratio 1 2) eq_refl eq_refl).
Defined.

(** ** The scenarios of the specification, run on the program *)

(** The environment above leaves every package variable at its default and
    logs nothing. *)
Example out_of_range_env_keeps_defaults :
  getEnvVariables Strconv.ParseFloat Strconv.ParseInt32 out_of_range_env defaults =
    ([], inr defaults).
Proof. vm_compute. reflexivity. Qed.

(** A value that does not parse ends the process. *)
Example malformed_scale_factor_exits :
  getEnvVariables Strconv.ParseFloat Strconv.ParseInt32
    {[ "SCALE_FACTOR" := "fast" ]} defaults =
    ([Log Error "Could not parse environment SCALE_FACTOR variable"], inl 1).
Proof. vm_compute. reflexivity. Qed.

(** Scenario D: a negative [fixedReplicas] is rejected. *)
Example scenario_D :
  decision Strconv.Atoi amd64_cvtOverflow override_enabled pinned_negative =
    HttpError StatusBadRequest "Invalid fixedReplicas value. Must be >= 0.".
Proof. vm_compute. reflexivity. Qed.

(** Scenario E: fifty rooms on ten replicas with a scale factor of one. *)
Example scenario_E :
  decision Strconv.Atoi amd64_cvtOverflow (set_scaleFactor (of_Z 1) defaults)
    rooms_half_full = decided rooms_half_full false 10.
Proof. vm_compute. reflexivity. Qed.

(** The down-scale branch has no lower clamp: with [minReplicas = 3], four
    idle replicas are scaled down to two. *)
Example downscale_below_min :
  decision Strconv.Atoi amd64_cvtOverflow (set_minReplicasCount 3 defaults)
    (fleet 4 1 None None) = decided (fleet 4 1 None None) true 2.
Proof. vm_compute. reflexivity. Qed.

(** A nil request, an undecodable body and a review without request. *)
Example handleAutoscale_without_request :
  handleAutoscale Strconv.Atoi amd64_cvtOverflow defaults None =
    HttpError StatusInternalServerError "Empty request" /\
  handleAutoscale Strconv.Atoi amd64_cvtOverflow defaults (Some (DecodeError "EOF")) =
    HttpError StatusInternalServerError "EOF" /\
  handleAutoscale Strconv.Atoi amd64_cvtOverflow defaults
    (Some (Decoded {| Request := None; Response := None |})) = Panic.
Proof. repeat split. Qed.

(** * Further properties of the program *)

(** ** The handler on every request *)

Section EveryRequest.
Variable Atoi : string -> option Z.
Variable cvtOverflow : float64 -> Z.
Variable cfg : Config.

Lemma handleReview_unparsable req value :
  fixedReplicasOverrideEnabled cfg = true ->
  fixedAnnotation req = Some value ->
  Atoi value = None ->
  handleReview Atoi cvtOverflow cfg req =
    ([Log Error "Invalid fixedReplicas value in annotations"],
     inl (HttpError StatusBadRequest "Invalid fixedReplicas value. Must be an integer.")).
Proof.
  intros Hen Hann Hv. unfold handleReview.
  now rewrite Hen, (fixedOverride_present _ _ _ _ Hann), Hv.
Qed.

Lemma handleReview_negative req value v :
  fixedReplicasOverrideEnabled cfg = true ->
  fixedAnnotation req = Some value ->
  Atoi value = Some v ->
  v < 0 ->
  handleReview Atoi cvtOverflow cfg req =
    ([Log Error "fixedReplicas value cannot be negative"],
     inl (HttpError StatusBadRequest "Invalid fixedReplicas value. Must be >= 0.")).
Proof.
  intros Hen Hann Hv Hneg. unfold handleReview.
  rewrite Hen, (fixedOverride_present _ _ _ _ Hann), Hv.
  now destruct (Z.ltb_spec v 0); [| lia].
Qed.

Lemma handleReview_path req :
  path cvtOverflow cfg req (handleReview Atoi cvtOverflow cfg req).
Proof.
  destruct (fixedReplicasOverrideEnabled cfg) eqn:Hen.
  - destruct (fixedAnnotation req) as [value |] eqn:Hann.
    + destruct (Atoi value) as [v |] eqn:Hv.
      * destruct (Z.lt_ge_cases v 0) as [Hneg | Hpos].
        -- rewrite (handleReview_negative _ _ _ Hen Hann Hv Hneg). constructor.
        -- rewrite (handleReview_pinned _ _ _ _ _ _ Hen Hann Hv Hpos). constructor.
      * rewrite (handleReview_unparsable _ _ Hen Hann Hv). constructor.
    + rewrite (handleReview_no_annotation _ _ _ _ Hen Hann). constructor. now left.
  - destruct (Z.eq_dec (Replicas (Status req)) 0) as [Hz | Hnz].
    + rewrite (handleReview_zero _ _ _ _ Hen Hz).
      replace (decided req false 0)
        with (if (0 <? maxReplicasCount cfg)
                 && (maxReplicasCount cfg <? Replicas (Status req))
              then decided req true (maxReplicasCount cfg)
              else decided req false (Replicas (Status req))).
      * constructor. now right.
      * rewrite Hz. destruct (Z.ltb_spec 0 (maxReplicasCount cfg)),
          (Z.ltb_spec (maxReplicasCount cfg) 0); cbn [andb]; try reflexivity; lia.
    + destruct (capacityCounterUsable req) eqn:Hu.
      * unfold capacityCounterUsable in Hu.
        destruct (roomsOf req) as [room |] eqn:Hroom; [| discriminate].
        apply andb_prop in Hu as [Hc%Z.ltb_lt Hr%Z.ltb_lt].
        rewrite (handleReview_rooms _ _ _ _ _ Hen Hroom Hc Hr). now constructor.
      * rewrite (handleReview_thresholds Atoi cvtOverflow cfg req)
          by (repeat split; assumption).
        constructor. repeat split; assumption.
Qed.

(** X1.  The handler never changes the replica count without raising [scale]. *)
Theorem unchanged_without_scale req resp :
  responseOf (decision Atoi cvtOverflow cfg req) = Some resp ->
  Scale resp = false ->
  Resp_Replicas resp = Replicas (Status req).
Proof.
  unfold decision.
  destruct (handleReview_path req) as [| | v | Hwhy | room Hroom | Hmode]; cbn.
  - discriminate.
  - discriminate.
  - intros [= <-]. discriminate.
  - destruct (_ && _); intros [= <-]; [discriminate | reflexivity].
  - intros [= <-]. cbn. intros Hsame%negb_false_iff. now apply Z.eqb_eq in Hsame.
  - cbn zeta. destruct (gtb _ _); [| destruct (ltb _ _ && _)]; cbn;
      try destruct (_ && _); intros [= <-]; discriminate || reflexivity.
Qed.

(** X2.  An error is logged exactly when the request is rejected. *)
Theorem error_logged_iff_rejected req :
  (exists msg, Log Error msg ∈ effects Atoi cvtOverflow cfg req) <->
  rejected (decision Atoi cvtOverflow cfg req).
Proof.
  unfold effects, decision, rejected.
  destruct (handleReview_path req) as [| | v | Hwhy | room Hroom | Hmode]; cbn.
  - split; [eauto | intros _; eexists; apply elem_of_cons; now left].
  - split; [eauto | intros _; eexists; apply elem_of_cons; now left].
  - split; [intros [msg Hin]; now apply elem_of_nil in Hin | intros [msg Hrej]; discriminate].
  - split; [intros [msg Hin]; now apply elem_of_nil in Hin |].
    intros [msg Hrej]. destruct (_ && _); discriminate.
  - split; [| intros [msg Hrej]; discriminate].
    intros [msg Hin]. rewrite !elem_of_cons, elem_of_nil in Hin.
    destruct Hin as [Hin | [Hin | []]]; discriminate.
  - cbn zeta. destruct (gtb _ _); [| destruct (ltb _ _ && _)]; cbn;
      (split; [| intros [msg Hrej]; try destruct (_ && _); discriminate]);
      intros [msg Hin]; rewrite ?elem_of_cons, elem_of_nil in Hin;
      intuition discriminate.
Qed.

(** X3.  In capacity-counter mode with consistent bounds the answer lies
    between [minReplicasCount] and, when it is set, [maxReplicasCount]. *)
Theorem capacity_mode_within_bounds req room resp :
  fixedReplicasOverrideEnabled cfg = false ->
  0 < Replicas (Status req) ->
  roomsOf req = Some room ->
  0 < Capacity room ->
  boundsOrdered cfg ->
  responseOf (decision Atoi cvtOverflow cfg req) = Some resp ->
  minReplicasCount cfg <= Resp_Replicas resp /\
  (0 < maxReplicasCount cfg -> Resp_Replicas resp <= maxReplicasCount cfg).
Proof.
  intros Hen Hrep Hroom Hcap Hord. unfold decision.
  rewrite (handleReview_rooms _ _ _ _ _ Hen Hroom Hcap Hrep). cbn.
  intros [= <-]. cbn. unfold boundsOrdered in Hord.
  unfold capacityTarget, clamp. cbn zeta.
  destruct (Z.ltb_spec 0 (maxReplicasCount cfg)); lia.
Qed.

(** X4.  In capacity-counter mode, when both ceilings fit [int32], the answer
    is made of the mathematical ceilings and does not depend on what the
    platform does with conversions that overflow. *)
Theorem capacity_mode_exact req room baseDesired target :
  fixedReplicasOverrideEnabled cfg = false ->
  0 < Replicas (Status req) ->
  roomsOf req = Some room ->
  0 < Capacity room ->
  ceilZ (Float64.div (of_Z (Count room)) capPerReplica) = Some baseDesired ->
  Int32.in_range baseDesired = true ->
  ceilZ (Float64.mul
           (of_Z (clamp (minReplicasCount cfg) (maxReplicasCount cfg) baseDesired))
           (scaleFactor cfg)) = Some target ->
  Int32.in_range target = true ->
  let replicas := clamp (minReplicasCount cfg) (maxReplicasCount cfg) target in
  decision Atoi cvtOverflow cfg req =
    decided req (negb (replicas =? Replicas (Status req))) replicas.
Proof.
  intros Hen Hrep Hroom Hcap Hb Hbr Ht Htr replicas. unfold decision.
  rewrite (handleReview_rooms _ _ _ _ _ Hen Hroom Hcap Hrep). cbn.
  now rewrite (capacityTarget_exact cvtOverflow cfg _ _ _ Hb Hbr Ht Htr).
Qed.

(** X5.  The value of a [fixedReplicas] annotation is converted to [int32]
    without a range check: any non-negative [v] is accepted and the answer
    carries its low 32 bits (read as a signed number), clamped to
    [maxReplicasCount] when that is set. *)
Theorem fixed_override_low_32_bits req value v :
  fixedReplicasOverrideEnabled cfg = true ->
  fixedAnnotation req = Some value ->
  Atoi value = Some v ->
  0 <= v ->
  decision Atoi cvtOverflow cfg req =
    decided req true (clampMax (maxReplicasCount cfg) (Int32.wrap v)).
Proof.
  intros Hen Hann Hv Hpos. unfold decision.
  now rewrite (handleReview_pinned _ _ _ _ _ _ Hen Hann Hv Hpos).
Qed.

(** X6.  A fleet with no allocated replica is never scaled up by the
    thresholds when the upper threshold is not negative: it is scaled down
    when the lower threshold is positive and [currentReplicas] exceeds
    [minReplicasCount], and left alone (up to the final clamp) otherwise. *)
Theorem idle_fleet req :
  thresholdMode cfg req ->
  AllocatedReplicas (Status req) = 0 ->
  Int32.in_range (Replicas (Status req)) = true ->
  ltb (replicaUpperThreshold cfg) (of_Z 0) = false ->
  let current := Replicas (Status req) in
  decision Atoi cvtOverflow cfg req =
    if gtb (replicaLowerThreshold cfg) (of_Z 0) && (minReplicasCount cfg <? current)
    then decided req true
           (clampMax (maxReplicasCount cfg) (downscaleTarget cvtOverflow cfg current))
    else if (0 <? maxReplicasCount cfg) && (maxReplicasCount cfg <? current)
         then decided req true (maxReplicasCount cfg)
         else decided req false current.
Proof.
  intros Hmode Halloc Hrange Hupper current. unfold decision.
  rewrite (handleReview_thresholds Atoi cvtOverflow cfg req Hmode). cbn zeta.
  destruct Hmode as (_ & Hnz & _).
  assert (Hfrac : exists s, allocatedFraction req = S754_zero s).
  { unfold allocatedFraction. rewrite Halloc.
    destruct (of_Z_finite (Replicas (Status req)) Hnz) as (s & m & e & ->).
    - unfold Int32.in_range, Int32.min_int, Int32.max_int in Hrange.
      apply andb_prop in Hrange as [H1%Z.leb_le H2%Z.leb_le]. lia.
    - now exists s. }
  destruct Hfrac as [s ->].
  assert (Hup : gtb (S754_zero s) (replicaUpperThreshold cfg) = false).
  { revert Hupper. unfold gtb, ltb, SFltb.
    now destruct (replicaUpperThreshold cfg) as [? | [] | | [] ? ?]. }
  assert (Hlow : ltb (S754_zero s) (replicaLowerThreshold cfg)
                 = gtb (replicaLowerThreshold cfg) (of_Z 0)).
  { unfold gtb, ltb, SFltb.
    now destruct (replicaLowerThreshold cfg) as [? | [] | | [] ? ?]. }
  rewrite Hup, Hlow. now destruct (_ && _).
Qed.

(** X7.  A "rooms" counter that cannot be used (no capacity, or a replica count
    that is not positive) is ignored: the response and the effects are
    those for the same fleet reported without counters. *)
Theorem unusable_counter_ignored req :
  capacityCounterUsable req = false ->
  responseOf (decision Atoi cvtOverflow cfg req) =
    responseOf (decision Atoi cvtOverflow cfg (withoutCounters req)) /\
  effects Atoi cvtOverflow cfg req =
    effects Atoi cvtOverflow cfg (withoutCounters req).
Proof.
  intros Hu.
  unfold decision, effects, handleReview.
  change (roomsCounter cvtOverflow cfg (withoutCounters req))
    with (fun _ : FleetAutoscaleResponse => (mret tt : M HttpResult unit)).
  rewrite (roomsCounter_unusable cvtOverflow cfg req _ Hu).
  change (fixedOverride Atoi (withoutCounters req)) with (fixedOverride Atoi req).
  change (allocatedThresholds cvtOverflow cfg (withoutCounters req))
    with (allocatedThresholds cvtOverflow cfg req).
  cbn [withoutCounters UID Status Replicas].
  destruct (if fixedReplicasOverrideEnabled cfg then _ else _) as [l [r | faResp]];
    now split.
Qed.

(** X8.  [handleAutoscale] answers 500 only for a nil request or a body that
    does not decode, and panics only on a decoded review without request;
    a decoded request is never answered with 500. *)
Theorem handleAutoscale_failures r :
  (forall msg,
     handleAutoscale Atoi cvtOverflow cfg r = HttpError StatusInternalServerError msg <->
     (r = None /\ msg = "Empty request") \/ r = Some (DecodeError msg)) /\
  (handleAutoscale Atoi cvtOverflow cfg r = Panic <->
     exists resp, r = Some (Decoded {| Request := None; Response := resp |})).
Proof.
  destruct r as [[err | [[req |] resp]] |]; cbn.
  - split.
    + intros msg. split; [intros [= ->]; now right | intros [[? _] | [= ->]]; congruence].
    + split; [discriminate | intros [? ?]; discriminate].
  - pose proof (decision_shape Atoi cvtOverflow cfg req) as Hshape.
    split.
    + intros msg. split.
      * intros Hdec. destruct Hshape as [[msg' Hrej] | (scale & replicas & Hok)];
          unfold decided in *; rewrite Hdec in *; discriminate.
      * intros [[? _] | ?]; discriminate.
    + split.
      * intros Hdec. destruct Hshape as [[msg' Hrej] | (scale & replicas & Hok)];
          unfold decided in *; rewrite Hdec in *; discriminate.
      * intros [? ?]; discriminate.
  - split.
    + intros msg. split; [discriminate | intros [[? _] | ?]; discriminate].
    + split; [eauto | reflexivity].
  - split.
    + intros msg. split; [intros [= <-]; now left | intros [[_ ->] | ?]; [reflexivity | discriminate]].
    + split; [discriminate | intros [? ?]; discriminate].
Qed.
End EveryRequest.

(** ** The loader on every environment *)

Lemma bind_returns {R A B} (m : M R A) (f : A -> M R B) (l : list event) (b : B) :
  m ≫= f = (l, inr b) ->
  exists l1 a l2, m = (l1, inr a) /\ f a = (l2, inr b) /\ l = l1 ++ l2.
Proof.
  destruct m as [l1 [r | a]]; cbn; [discriminate |].
  destruct (f a) as [l2 x] eqn:Hf. cbn. intros [= <- ->]. eauto 6.
Qed.

Lemma bind_stops {R A B} (m : M R A) (f : A -> M R B) (l : list event) (r : R) :
  m ≫= f = (l, inl r) ->
  m = (l, inl r) \/
  exists l1 a l2, m = (l1, inr a) /\ f a = (l2, inl r) /\ l = l1 ++ l2.
Proof.
  destruct m as [l1 [r' | a]]; cbn; [intros [= <- <-]; now left |].
  destruct (f a) as [l2 x] eqn:Hf. cbn. intros [= <- ->]. right. eauto 6.
Qed.

Lemma wrap_in_range (n : Z) : Int32.in_range n = true -> Int32.wrap n = n.
Proof.
  unfold Int32.in_range, Int32.min_int, Int32.max_int, Int32.wrap.
  intros [H1%Z.leb_le H2%Z.leb_le]%andb_prop. rewrite Z.mod_small; lia.
Qed.

Section EveryEnvironment.
Variable ParseFloat : string -> option float64.
Variable ParseInt : string -> option Z.

(** A run of [getEnvVariables] that returns went through its seven steps. *)
Lemma getEnvVariables_steps env g l g' :
  getEnvVariables ParseFloat ParseInt env g = (l, inr g') ->
  exists l1 g1 l2 g2 l3 g3 l4 g4 l5 g5 l6 g6 l7,
    readScaleFactor ParseFloat env g = (l1, inr g1) /\
    readUpscaleTrigger ParseFloat env g1 = (l2, inr g2) /\
    readDownscaleTrigger ParseFloat env g2 = (l3, inr g3) /\
    readMinReplicas ParseInt env g3 = (l4, inr g4) /\
    readMaxReplicas ParseInt env g4 = (l5, inr g5) /\
    readFixedReplicas env g5 = (l6, inr g6) /\
    adjustMinReplicas (adjustLowerThreshold g6) = (l7, inr g') /\
    l = l1 ++ l2 ++ l3 ++ l4 ++ l5 ++ l6 ++ l7.
Proof.
  unfold getEnvVariables. intros H.
  apply bind_returns in H as (l1 & g1 & r1 & H1 & H & ->).
  apply bind_returns in H as (l2 & g2 & r2 & H2 & H & ->).
  apply bind_returns in H as (l3 & g3 & r3 & H3 & H & ->).
  apply bind_returns in H as (l4 & g4 & r4 & H4 & H & ->).
  apply bind_returns in H as (l5 & g5 & r5 & H5 & H & ->).
  apply bind_returns in H as (l6 & g6 & r6 & H6 & H & ->).
  exists l1, g1, l2, g2, l3, g3, l4, g4, l5, g5, l6, g6, r6. auto 10.
Qed.

(** What each step can have done. *)
Lemma readScaleFactor_returns env g l g1 :
  readScaleFactor ParseFloat env g = (l, inr g1) ->
  l = [] /\
  (g1 = g \/ exists factor, gtb factor (of_Z 1) = true /\ g1 = set_scaleFactor factor g).
Proof.
  unfold readScaleFactor.
  destruct (negb _); [destruct (ParseFloat _) as [factor |];
                      [destruct (gtb factor _) eqn:Hc |] |];
    cbn; intros [= <- <-] || discriminate; eauto.
Qed.

Lemma readUpscaleTrigger_returns env g l g1 :
  readUpscaleTrigger ParseFloat env g = (l, inr g1) ->
  l = [] /\
  (g1 = g \/ exists trigger, gtb trigger (of_ratio 1 10) = true /\
                        g1 = set_replicaUpperThreshold trigger g).
Proof.
  unfold readUpscaleTrigger.
  destruct (negb _); [destruct (ParseFloat _) as [trigger |];
                      [destruct (gtb trigger _) eqn:Hc |] |];
    cbn; intros [= <- <-] || discriminate; eauto.
Qed.

Lemma readDownscaleTrigger_returns env g l g1 :
  readDownscaleTrigger ParseFloat env g = (l, inr g1) ->
  l = [] /\
  (g1 = g \/ exists trigger,
      ltb trigger (Float64.div (replicaUpperThreshold g) (scaleFactor g)) = true /\
      g1 = set_replicaLowerThreshold trigger g).
Proof.
  unfold readDownscaleTrigger.
  destruct (negb _); [destruct (ParseFloat _) as [trigger |];
                      [destruct (ltb trigger _) eqn:Hc |] |];
    cbn; intros [= <- <-] || discriminate; eauto.
Qed.

Lemma readMinReplicas_returns env g l g1 :
  readMinReplicas ParseInt env g = (l, inr g1) ->
  l = [] /\
  (g1 = g \/ exists n, ParseInt (Getenv env "MIN_REPLICAS_COUNT") = Some n /\ 0 <= n /\
                  g1 = set_minReplicasCount (Int32.wrap n) g).
Proof.
  unfold readMinReplicas.
  destruct (negb _); [destruct (ParseInt _) as [n |];
                      [destruct (Z.leb_spec 0 n) |] |];
    cbn; intros [= <- <-] || discriminate; eauto 6.
Qed.

Lemma readMaxReplicas_returns env g l g1 :
  readMaxReplicas ParseInt env g = (l, inr g1) ->
  l = [] /\
  (g1 = g \/ exists n, ParseInt (Getenv env "MAX_REPLICAS_COUNT") = Some n /\ 0 <= n /\
                  g1 = set_maxReplicasCount (Int32.wrap n) g).
Proof.
  unfold readMaxReplicas.
  destruct (negb _); [destruct (ParseInt _) as [n |];
                      [destruct (Z.leb_spec 0 n) |] |];
    cbn; intros [= <- <-] || discriminate; eauto 6.
Qed.

Lemma readFixedReplicas_sets env g l g1 :
  readFixedReplicas env g = (l, inr g1) ->
  (forall msg, Log Error msg ∉ l) /\
  g1 = (if String.eqb (Getenv env "FIXED_REPLICAS") "" then g
        else set_fixedReplicasOverrideEnabled
               (String.eqb (Getenv env "FIXED_REPLICAS") "true") g).
Proof.
  unfold readFixedReplicas.
  destruct (String.eqb (Getenv env "FIXED_REPLICAS") ""); cbn [negb].
  - cbn. intros [= <- <-]. split; [intros msg Hin; now apply elem_of_nil in Hin | reflexivity].
  - destruct (String.eqb _ "true"); cbn; intros [= <- <-];
      (split; [| reflexivity]); intros msg Hin;
      rewrite elem_of_cons, elem_of_nil in Hin; intuition discriminate.
Qed.

Lemma adjustLowerThreshold_keeps g :
  scaleFactor (adjustLowerThreshold g) = scaleFactor g /\
  replicaUpperThreshold (adjustLowerThreshold g) = replicaUpperThreshold g /\
  minReplicasCount (adjustLowerThreshold g) = minReplicasCount g /\
  maxReplicasCount (adjustLowerThreshold g) = maxReplicasCount g /\
  fixedReplicasOverrideEnabled (adjustLowerThreshold g) = fixedReplicasOverrideEnabled g.
Proof. unfold adjustLowerThreshold. now destruct (geb _ _). Qed.

Lemma adjustMinReplicas_sets g l g' :
  adjustMinReplicas g = (l, inr g') ->
  (forall msg, Log Error msg ∉ l) /\
  g' = set_minReplicasCount
         (if (0 <? maxReplicasCount g) && (maxReplicasCount g <? minReplicasCount g)
          then maxReplicasCount g else minReplicasCount g) g.
Proof.
  unfold adjustMinReplicas. destruct (_ && _); cbn; intros [= <- <-].
  - split; [| reflexivity]. intros msg Hin.
    rewrite elem_of_cons, elem_of_nil in Hin. intuition discriminate.
  - split; [intros msg Hin; now apply elem_of_nil in Hin | now destruct g].
Qed.

Lemma adjustMinReplicas_orders g l g' :
  adjustMinReplicas g = (l, inr g') -> boundsOrdered g'.
Proof.
  intros [_ ->]%adjustMinReplicas_sets. unfold boundsOrdered. cbn.
  destruct (Z.ltb_spec 0 (maxReplicasCount g)),
    (Z.ltb_spec (maxReplicasCount g) (minReplicasCount g)); cbn [andb]; lia.
Qed.

(** X9.  Whatever the environment and the variables at start, the
    variables the loader leaves have consistent bounds: a set maximum is
    not below the minimum. *)
Theorem loaded_bounds_ordered env g l g' :
  getEnvVariables ParseFloat ParseInt env g = (l, inr g') ->
  boundsOrdered g'.
Proof.
  intros H.
  apply getEnvVariables_steps in H
    as (l1 & g1 & l2 & g2 & l3 & g3 & l4 & g4 & l5 & g5 & l6 & g6 & l7 & _ & _ & _ & _
        & _ & _ & H7 & _).
  exact (adjustMinReplicas_orders _ _ _ H7).
Qed.

(** X10.  With a parser that keeps to [int32], counts that start between 0 and
    the largest [int32] stay there. *)
Theorem loaded_counts_in_range env g l g' :
  (forall s n, ParseInt s = Some n -> Int32.in_range n = true) ->
  0 <= minReplicasCount g <= Int32.max_int ->
  0 <= maxReplicasCount g <= Int32.max_int ->
  getEnvVariables ParseFloat ParseInt env g = (l, inr g') ->
  0 <= minReplicasCount g' <= Int32.max_int /\
  0 <= maxReplicasCount g' <= Int32.max_int.
Proof.
  intros Hparse Hmin Hmax H.
  apply getEnvVariables_steps in H
    as (l1 & g1 & l2 & g2 & l3 & g3 & l4 & g4 & l5 & g5 & l6 & g6 & l7
        & H1 & H2 & H3 & H4 & H5 & H6 & H7 & _).
  apply readScaleFactor_returns in H1 as [_ H1].
  apply readUpscaleTrigger_returns in H2 as [_ H2].
  apply readDownscaleTrigger_returns in H3 as [_ H3].
  apply readMinReplicas_returns in H4 as [_ H4].
  apply readMaxReplicas_returns in H5 as [_ H5].
  apply readFixedReplicas_sets in H6 as [_ H6].
  apply adjustMinReplicas_sets in H7 as [_ ->].
  assert (Hbound : forall n, 0 <= n -> Int32.in_range n = true ->
                             0 <= Int32.wrap n <= Int32.max_int).
  { intros n Hn Hr. rewrite (wrap_in_range n Hr).
    unfold Int32.in_range in Hr. apply andb_prop in Hr as [_ Hr%Z.leb_le]. lia. }
  assert (H36 : 0 <= minReplicasCount g3 <= Int32.max_int /\
                0 <= maxReplicasCount g3 <= Int32.max_int).
  { destruct H1 as [-> | (? & _ & ->)], H2 as [-> | (? & _ & ->)],
      H3 as [-> | (? & _ & ->)]; cbn; auto. }
  assert (H4' : 0 <= minReplicasCount g4 <= Int32.max_int /\
                0 <= maxReplicasCount g4 <= Int32.max_int).
  { destruct H4 as [-> | (n & Hn & Hpos & ->)]; cbn; [exact H36 |].
    split; [apply Hbound; eauto | apply H36]. }
  assert (H5' : 0 <= minReplicasCount g5 <= Int32.max_int /\
                0 <= maxReplicasCount g5 <= Int32.max_int).
  { destruct H5 as [-> | (n & Hn & Hpos & ->)]; cbn; [exact H4' |].
    split; [apply H4' | apply Hbound; eauto]. }
  assert (H6' : 0 <= minReplicasCount g6 <= Int32.max_int /\
                0 <= maxReplicasCount g6 <= Int32.max_int).
  { rewrite H6. now destruct (String.eqb _ ""). }
  cbn. destruct (adjustLowerThreshold_keeps g6) as (_ & _ & Hm & HM & _).
  rewrite Hm, HM. destruct (_ && _); [split; apply H6' | exact H6'].
Qed.

(** X11.  A scale factor above 1 and an upper threshold above 0.1 stay so: the
    loader only replaces them by values that pass the same tests. *)
Theorem loaded_factor_and_trigger env g l g' :
  gtb (scaleFactor g) (of_Z 1) = true ->
  gtb (replicaUpperThreshold g) (of_ratio 1 10) = true ->
  getEnvVariables ParseFloat ParseInt env g = (l, inr g') ->
  gtb (scaleFactor g') (of_Z 1) = true /\
  gtb (replicaUpperThreshold g') (of_ratio 1 10) = true.
Proof.
  intros Hsf Hup H.
  apply getEnvVariables_steps in H
    as (l1 & g1 & l2 & g2 & l3 & g3 & l4 & g4 & l5 & g5 & l6 & g6 & l7
        & H1 & H2 & H3 & H4 & H5 & H6 & H7 & _).
  apply readScaleFactor_returns in H1 as [_ H1].
  apply readUpscaleTrigger_returns in H2 as [_ H2].
  apply readDownscaleTrigger_returns in H3 as [_ H3].
  apply readMinReplicas_returns in H4 as [_ H4].
  apply readMaxReplicas_returns in H5 as [_ H5].
  apply readFixedReplicas_sets in H6 as [_ H6].
  apply adjustMinReplicas_sets in H7 as [_ ->]. cbn.
  destruct (adjustLowerThreshold_keeps g6) as (-> & -> & _).
  rewrite H6.
  assert (Hg5 : gtb (scaleFactor g5) (of_Z 1) = true /\
                gtb (replicaUpperThreshold g5) (of_ratio 1 10) = true).
  { destruct H1 as [-> | (? & ? & ->)], H2 as [-> | (? & ? & ->)],
      H3 as [-> | (? & _ & ->)], H4 as [-> | (? & _ & _ & ->)],
      H5 as [-> | (? & _ & _ & ->)]; cbn; auto. }
  now destruct (String.eqb _ "").
Qed.

(** X12.  The override is enabled by [FIXED_REPLICAS=true] and by nothing else:
    any other non-empty value disables it, and an unset or empty variable
    leaves it as it was. *)
Theorem loaded_override_flag env g l g' :
  getEnvVariables ParseFloat ParseInt env g = (l, inr g') ->
  fixedReplicasOverrideEnabled g' =
    if String.eqb (Getenv env "FIXED_REPLICAS") "" then fixedReplicasOverrideEnabled g
    else String.eqb (Getenv env "FIXED_REPLICAS") "true".
Proof.
  intros H.
  apply getEnvVariables_steps in H
    as (l1 & g1 & l2 & g2 & l3 & g3 & l4 & g4 & l5 & g5 & l6 & g6 & l7
        & H1 & H2 & H3 & H4 & H5 & H6 & H7 & _).
  apply readScaleFactor_returns in H1 as [_ H1].
  apply readUpscaleTrigger_returns in H2 as [_ H2].
  apply readDownscaleTrigger_returns in H3 as [_ H3].
  apply readMinReplicas_returns in H4 as [_ H4].
  apply readMaxReplicas_returns in H5 as [_ H5].
  apply readFixedReplicas_sets in H6 as [_ H6].
  apply adjustMinReplicas_sets in H7 as [_ ->]. cbn.
  destruct (adjustLowerThreshold_keeps g6) as (_ & _ & _ & _ & ->).
  rewrite H6.
  assert (Hg5 : fixedReplicasOverrideEnabled g5 = fixedReplicasOverrideEnabled g).
  { destruct H1 as [-> | (? & ? & ->)], H2 as [-> | (? & ? & ->)],
      H3 as [-> | (? & _ & ->)], H4 as [-> | (? & _ & _ & ->)],
      H5 as [-> | (? & _ & _ & ->)]; reflexivity. }
  now destruct (String.eqb _ "").
Qed.

(** X13.  A trigger read from [REPLICA_DOWNSCALE_TRIGGER] that passes its check
    is the lower threshold the handlers get: the normalization of lines
    95-97 leaves it alone. *)
Theorem accepted_downscale_trigger_kept env g l g' trigger :
  getEnvVariables ParseFloat ParseInt env g = (l, inr g') ->
  Getenv env "REPLICA_DOWNSCALE_TRIGGER" <> "" ->
  ParseFloat (Getenv env "REPLICA_DOWNSCALE_TRIGGER") = Some trigger ->
  ltb trigger (Float64.div (replicaUpperThreshold g') (scaleFactor g')) = true ->
  replicaLowerThreshold g' = trigger.
Proof.
  intros H Hset Hparse Hcheck.
  apply getEnvVariables_steps in H
    as (l1 & g1 & l2 & g2 & l3 & g3 & l4 & g4 & l5 & g5 & l6 & g6 & l7
        & _ & _ & H3 & H4 & H5 & H6 & H7 & _).
  apply readMinReplicas_returns in H4 as [_ H4].
  apply readMaxReplicas_returns in H5 as [_ H5].
  apply readFixedReplicas_sets in H6 as [_ H6].
  apply adjustMinReplicas_sets in H7 as [_ ->]. cbn in Hcheck |- *.
  assert (Hsame : replicaUpperThreshold g6 = replicaUpperThreshold g2 /\
                  scaleFactor g6 = scaleFactor g2 /\
                  (ltb trigger (Float64.div (replicaUpperThreshold g2) (scaleFactor g2))
                   = true -> replicaLowerThreshold g6 = trigger)).
  { rewrite H6. unfold readDownscaleTrigger in H3.
    destruct (String.eqb_spec (Getenv env "REPLICA_DOWNSCALE_TRIGGER") "")
      as [Hempty | _]; [contradiction |].
    cbn [negb] in H3. rewrite Hparse in H3.
    destruct (ltb trigger _) eqn:Hc; cbn in H3; injection H3 as _ <-;
      destruct H4 as [-> | (? & _ & _ & ->)], H5 as [-> | (? & _ & _ & ->)],
        (String.eqb _ ""); cbn; repeat split; congruence. }
  destruct Hsame as (Hup & Hsf & Hlow).
  destruct (adjustLowerThreshold_keeps g6) as (Hsf' & Hup' & _).
  rewrite Hsf', Hup', Hup, Hsf in Hcheck.
  unfold adjustLowerThreshold. rewrite (Hlow Hcheck), Hup, Hsf.
  assert (Hgeb : geb trigger (Float64.div (replicaUpperThreshold g2) (scaleFactor g2))
                 = false).
  { unfold geb. destruct (SFleb _ trigger) eqn:Hle; [| reflexivity].
    apply leb_not_gtb in Hle. unfold gtb in Hle. unfold ltb in Hcheck. congruence. }
  rewrite Hgeb. exact (Hlow Hcheck).
Qed.

(** A run that exits wrote one error record and nothing else. *)
Lemma getEnvVariables_stops env g l code :
  getEnvVariables ParseFloat ParseInt env g = (l, inl code) ->
  code = 1 /\ exists msg, l = [Log Error msg].
Proof.
  unfold getEnvVariables. intros H.
  apply bind_stops in H as [H | (l1 & g1 & r1 & H1 & H & ->)].
  { revert H. unfold readScaleFactor.
    destruct (negb _); [destruct (ParseFloat _) as [f |]; [destruct (gtb f _) |] |];
      cbn; try discriminate.
    intros [= <- <-]. eauto. }
  apply readScaleFactor_returns in H1 as [-> _].
  apply bind_stops in H as [H | (l2 & g2 & r2 & H2 & H & ->)].
  { revert H. unfold readUpscaleTrigger.
    destruct (negb _); [destruct (ParseFloat _) as [f |]; [destruct (gtb f _) |] |];
      cbn; try discriminate.
    intros [= <- <-]. eauto. }
  apply readUpscaleTrigger_returns in H2 as [-> _].
  apply bind_stops in H as [H | (l3 & g3 & r3 & H3 & H & ->)].
  { revert H. unfold readDownscaleTrigger.
    destruct (negb _); [destruct (ParseFloat _) as [f |]; [destruct (ltb f _) |] |];
      cbn; try discriminate.
    intros [= <- <-]. eauto. }
  apply readDownscaleTrigger_returns in H3 as [-> _].
  apply bind_stops in H as [H | (l4 & g4 & r4 & H4 & H & ->)].
  { revert H. unfold readMinReplicas.
    destruct (negb _); [destruct (ParseInt _) as [n |]; [destruct (0 <=? n) |] |];
      cbn; try discriminate.
    intros [= <- <-]. eauto. }
  apply readMinReplicas_returns in H4 as [-> _].
  apply bind_stops in H as [H | (l5 & g5 & r5 & H5 & H & ->)].
  { revert H. unfold readMaxReplicas.
    destruct (negb _); [destruct (ParseInt _) as [n |]; [destruct (0 <=? n) |] |];
      cbn; try discriminate.
    intros [= <- <-]. eauto. }
  apply readMaxReplicas_returns in H5 as [-> _].
  apply bind_stops in H as [H | (l6 & g6 & r6 & H6 & H & ->)].
  { destruct (readFixedReplicas_returns env g5) as (? & ? & Hr). congruence. }
  destruct (adjustMinReplicas_returns (adjustLowerThreshold g6)) as (? & ? & Hr).
  congruence.
Qed.

(** X14.  The loader writes an error record exactly when it terminates the
    process, and then it writes that record alone. *)
Theorem loader_error_iff_exit env g :
  let run := getEnvVariables ParseFloat ParseInt env g in
  ((exists msg, Log Error msg ∈ run.1) <-> exited run) /\
  (exited run -> exists msg, run.1 = [Log Error msg]).
Proof.
  cbn zeta. unfold exited.
  destruct (getEnvVariables ParseFloat ParseInt env g) as [l [code | g']] eqn:Hrun; cbn.
  - destruct (getEnvVariables_stops _ _ _ _ Hrun) as [-> [msg ->]].
    split; [| eauto]. split; [reflexivity |].
    intros _. exists msg. apply elem_of_cons. now left.
  - split; [| discriminate]. split; [| discriminate].
    intros [msg Hin]. exfalso.
    apply getEnvVariables_steps in Hrun
      as (l1 & g1 & l2 & g2 & l3 & g3 & l4 & g4 & l5 & g5 & l6 & g6 & l7
          & H1 & H2 & H3 & H4 & H5 & H6 & H7 & ->).
    apply readScaleFactor_returns in H1 as [-> _].
    apply readUpscaleTrigger_returns in H2 as [-> _].
    apply readDownscaleTrigger_returns in H3 as [-> _].
    apply readMinReplicas_returns in H4 as [-> _].
    apply readMaxReplicas_returns in H5 as [-> _].
    apply readFixedReplicas_sets in H6 as [H6 _].
    apply adjustMinReplicas_sets in H7 as [H7 _].
    cbn in Hin. apply elem_of_app in Hin as [Hin | Hin]; [now apply (H6 msg) | now apply (H7 msg)].
Qed.

(** X15.  With none of the six variables set, the loader returns the compiled-in
    defaults as they are and logs nothing: they need no normalization. *)
Theorem defaults_stand env :
  Getenv env "SCALE_FACTOR" = "" ->
  Getenv env "REPLICA_UPSCALE_TRIGGER" = "" ->
  Getenv env "REPLICA_DOWNSCALE_TRIGGER" = "" ->
  Getenv env "MIN_REPLICAS_COUNT" = "" ->
  Getenv env "MAX_REPLICAS_COUNT" = "" ->
  Getenv env "FIXED_REPLICAS" = "" ->
  getEnvVariables ParseFloat ParseInt env defaults = ([], inr defaults).
Proof.
  intros H1 H2 H3 H4 H5 H6.
  unfold getEnvVariables, readScaleFactor, readUpscaleTrigger, readDownscaleTrigger,
    readMinReplicas, readMaxReplicas, readFixedReplicas.
  rewrite H1, H2, H3, H4, H5, H6. reflexivity.
Qed.

(** X16.  [main] starts a server exactly when no variable is malformed; it then
    serves with the variables the loader left, whose bounds are consistent,
    on the port of [PORT] when that is set and of [-port] (8000 by default)
    otherwise, with TLS when the certificate is present. *)
Theorem main_serves_iff_loaded portFlag env certPresent g :
  let run := main ParseFloat ParseInt portFlag env certPresent g in
  (exited run <-> malformed ParseFloat ParseInt env) /\
  (exited run \/ exists l s, run = (l, inr s)) /\
  (forall l s, run = (l, inr s) ->
     (exists l', getEnvVariables ParseFloat ParseInt env g = (l', inr (variables s))) /\
     boundsOrdered (variables s) /\
     listener s =
       let port :=
         if String.eqb (Getenv env "PORT") "" then default "8000" portFlag
         else Getenv env "PORT" in
       if certPresent
       then ListenAndServeTLS (":" ++ port) "/home/service/certs/tls.crt"
              "/home/service/certs/tls.key"
       else ListenAndServe (":" ++ port)).
Proof.
  cbn zeta. unfold main, exited, malformed.
  destruct (getEnvVariables_cases ParseFloat ParseInt env g)
    as [[Hbad Hex] | [Hok (l0 & g0 & Hrun)]]; cbn zeta in *.
  - unfold exited in Hex.
    destruct (getEnvVariables ParseFloat ParseInt env g) as [l0 [code | g0]];
      cbn in Hex |- *; [| discriminate].
    injection Hex as ->. split; [tauto |]. split; [now left |]. discriminate.
  - assert (Hord : boundsOrdered g0).
    { apply getEnvVariables_steps in Hrun
        as (l1 & g1 & l2 & g2 & l3 & g3 & l4 & g4 & l5 & g5 & l6 & g6 & l7 & _ & _ & _
            & _ & _ & _ & H7 & _).
      exact (adjustMinReplicas_orders _ _ _ H7). }
    revert Hord. rewrite Hrun. intros Hord.
    destruct certPresent, (String.eqb (Getenv env "PORT") ""); cbn;
      (split; [split; [discriminate | tauto] |]);
      (split; [right; eauto |]);
      intros l s [= <- <-]; cbn; eauto.
Qed.
End EveryEnvironment.

(** ** The further properties on concrete inputs *)

(** Ten replicas with five allocated are left at ten, unscaled. *)
Lemma unchanged_without_scale_witness :
  responseOf (decision Strconv.Atoi amd64_cvtOverflow defaults (fleet 10 5 None None)) =
    Some {| Scale := false; Resp_Replicas := 10; Resp_UID := "review-1" |} /\
  Resp_Replicas {| Scale := false; Resp_Replicas := 10; Resp_UID := "review-1" |} = 10.
Proof.
  split; [reflexivity |].
  exact (unchanged_without_scale Strconv.Atoi amd64_cvtOverflow defaults
           (fleet 10 5 None None) _ eq_refl eq_refl).
Defined.

(** Fifty rooms on ten replicas under [maxReplicasCount = 6]: the answer
    is six, between two and six. *)
Lemma capacity_mode_within_bounds_witness :
  boundsOrdered at_most_six /\
  responseOf (decision Strconv.Atoi amd64_cvtOverflow at_most_six rooms_half_full) =
    Some {| Scale := true; Resp_Replicas := 6; Resp_UID := "review-1" |} /\
  (minReplicasCount at_most_six <= 6 /\
   (0 < maxReplicasCount at_most_six -> 6 <= maxReplicasCount at_most_six)).
Proof.
  assert (Hord : boundsOrdered at_most_six) by (intros _; discriminate).
  split; [exact Hord |]. split; [reflexivity |].
  exact (capacity_mode_within_bounds Strconv.Atoi amd64_cvtOverflow at_most_six
           rooms_half_full {| Count := 50; Capacity := 100 |} _
           eq_refl eq_refl eq_refl eq_refl Hord eq_refl).
Defined.

(** Fifty rooms on ten replicas with the defaults: [ceil (50 / 5) = 10],
    [ceil (10 * 2) = 20]. *)
Lemma capacity_mode_exact_witness :
  ceilZ (Float64.div (of_Z 50) capPerReplica) = Some 10 /\
  ceilZ (Float64.mul (of_Z 10) (scaleFactor defaults)) = Some 20 /\
  decision Strconv.Atoi amd64_cvtOverflow defaults rooms_half_full =
    decided rooms_half_full true 20.
Proof.
  do 2 (split; [reflexivity |]).
  exact (capacity_mode_exact Strconv.Atoi amd64_cvtOverflow defaults rooms_half_full
           {| Count := 50; Capacity := 100 |} 10 20
           eq_refl eq_refl eq_refl eq_refl eq_refl eq_refl eq_refl eq_refl).
Defined.

(** [fixedReplicas=2147483648] is answered with the most negative
    [int32]. *)
Lemma fixed_override_low_32_bits_witness :
  fixedAnnotation pinned_beyond_int32 = Some "2147483648" /\
  Strconv.Atoi "2147483648" = Some 2147483648 /\
  decision Strconv.Atoi amd64_cvtOverflow override_enabled pinned_beyond_int32 =
    decided pinned_beyond_int32 true (-2147483648).
Proof.
  do 2 (split; [reflexivity |]).
  exact (fixed_override_low_32_bits Strconv.Atoi amd64_cvtOverflow override_enabled
           pinned_beyond_int32 "2147483648" 2147483648 eq_refl eq_refl eq_refl
           (proj1 (Z.leb_le 0 2147483648) eq_refl)).
Defined.

(** Ten idle replicas are scaled down to five under the defaults. *)
Lemma idle_fleet_witness :
  thresholdMode defaults (fleet 10 0 None None) /\
  ltb (replicaUpperThreshold defaults) (of_Z 0) = false /\
  decision Strconv.Atoi amd64_cvtOverflow defaults (fleet 10 0 None None) =
    decided (fleet 10 0 None None) true 5.
Proof.
  assert (Hmode : thresholdMode defaults (fleet 10 0 None None)).
  { repeat split. discriminate. }
  split; [exact Hmode |]. split; [reflexivity |].
  exact (idle_fleet Strconv.Atoi amd64_cvtOverflow defaults (fleet 10 0 None None)
           Hmode eq_refl eq_refl eq_refl).
Defined.

(** A counter without capacity changes nothing: the fleet is scaled on its
    allocated fraction, from ten to twenty. *)
Lemma unusable_counter_ignored_witness :
  capacityCounterUsable rooms_without_capacity = false /\
  responseOf (decision Strconv.Atoi amd64_cvtOverflow defaults rooms_without_capacity) =
    responseOf (decision Strconv.Atoi amd64_cvtOverflow defaults (fleet 10 8 None None)) /\
  responseOf (decision Strconv.Atoi amd64_cvtOverflow defaults (fleet 10 8 None None)) =
    Some {| Scale := true; Resp_Replicas := 20; Resp_UID := "review-1" |}.
Proof.
  split; [reflexivity |]. split; [| reflexivity].
  exact (proj1 (unusable_counter_ignored Strconv.Atoi amd64_cvtOverflow defaults
                  rooms_without_capacity eq_refl)).
Defined.

(** [MIN_REPLICAS_COUNT=5] with [MAX_REPLICAS_COUNT=3] leaves a minimum of
    three. *)
Lemma loaded_bounds_ordered_witness :
  getEnvVariables Strconv.ParseFloat Strconv.ParseInt32 swapped_bounds_env defaults =
    ([Log Info "MIN_REPLICAS_COUNT exceeds MAX_REPLICAS_COUNT; adjusting min to max"],
     inr (set_minReplicasCount 3 (set_maxReplicasCount 3 defaults))) /\
  boundsOrdered (set_minReplicasCount 3 (set_maxReplicasCount 3 defaults)).
Proof.
  split; [reflexivity |].
  exact (loaded_bounds_ordered Strconv.ParseFloat Strconv.ParseInt32 swapped_bounds_env
           defaults _ _ eq_refl).
Defined.

Lemma ParseInt32_in_range (s : string) (n : Z) :
  Strconv.ParseInt32 s = Some n -> Int32.in_range n = true.
Proof.
  unfold Strconv.ParseInt32, Strconv.parseDecimal.
  destruct (Strconv.sign s) as [neg ds].
  destruct ds as [| c ds']; [discriminate |].
  destruct (Strconv.digits _ 0) as [m |]; [| discriminate].
  destruct (_ && _) eqn:Hr; [| discriminate]. intros [= <-].
  apply andb_prop in Hr as [H1%Z.leb_le H2%Z.ltb_lt].
  unfold Int32.in_range, Int32.min_int, Int32.max_int.
  apply andb_true_intro. split; [apply Z.leb_le | apply Z.leb_le]; cbn in *; lia.
Qed.

(** The same environment leaves both counts within [int32]. *)
Lemma loaded_counts_in_range_witness :
  0 <= minReplicasCount defaults <= Int32.max_int /\
  0 <= maxReplicasCount defaults <= Int32.max_int /\
  (0 <= 3 <= Int32.max_int /\ 0 <= 3 <= Int32.max_int).
Proof.
  assert (Hmin : 0 <= minReplicasCount defaults <= Int32.max_int)
    by (split; discriminate).
  assert (Hmax : 0 <= maxReplicasCount defaults <= Int32.max_int)
    by (split; discriminate).
  split; [exact Hmin |]. split; [exact Hmax |].
  exact (loaded_counts_in_range Strconv.ParseFloat Strconv.ParseInt32 swapped_bounds_env
           defaults _ (set_minReplicasCount 3 (set_maxReplicasCount 3 defaults))
           ParseInt32_in_range Hmin Hmax eq_refl).
Defined.

(** [SCALE_FACTOR=1.3] replaces the default factor by another one above 1. *)
Lemma loaded_factor_and_trigger_witness :
  gtb (scaleFactor defaults) (of_Z 1) = true /\
  gtb (replicaUpperThreshold defaults) (of_ratio 1 10) = true /\
  (gtb (scaleFactor gentle) (of_Z 1) = true /\
   gtb (replicaUpperThreshold gentle) (of_ratio 1 10) = true).
Proof.
  do 2 (split; [reflexivity |]).
  exact (loaded_factor_and_trigger Strconv.ParseFloat Strconv.ParseInt32 gentle_env
           defaults [] gentle eq_refl eq_refl eq_refl).
Defined.

(** [FIXED_REPLICAS=TRUE] does not enable the override. *)
Lemma loaded_override_flag_witness :
  getEnvVariables Strconv.ParseFloat Strconv.ParseInt32 shouting_env defaults =
    ([Log Info "FIXED_REPLICAS override is disabled"], inr defaults) /\
  fixedReplicasOverrideEnabled defaults = false.
Proof.
  split; [reflexivity |].
  exact (loaded_override_flag Strconv.ParseFloat Strconv.ParseInt32 shouting_env
           defaults _ defaults eq_refl).
Defined.

(** [REPLICA_DOWNSCALE_TRIGGER=0.52] under [SCALE_FACTOR=1.3] is kept. *)
Lemma accepted_downscale_trigger_kept_witness :
  Strconv.ParseFloat (Getenv gentle_env "REPLICA_DOWNSCALE_TRIGGER") = Some (of_ratio 52 100) /\
  ltb (of_ratio 52 100)
    (Float64.div (replicaUpperThreshold gentle) (scaleFactor gentle)) = true /\
  replicaLowerThreshold gentle = of_ratio 52 100.
Proof.
  do 2 (split; [reflexivity |]).
  refine (accepted_downscale_trigger_kept Strconv.ParseFloat Strconv.ParseInt32 gentle_env
            defaults [] gentle (of_ratio 52 100) eq_refl _ eq_refl eq_refl).
  discriminate.
Defined.

(** With only [PORT] set the defaults stand. *)
Lemma defaults_stand_witness :
  Getenv port_only_env "SCALE_FACTOR" = "" /\
  getEnvVariables Strconv.ParseFloat Strconv.ParseInt32 port_only_env defaults =
    ([], inr defaults).
Proof.
  split; [reflexivity |].
  exact (defaults_stand Strconv.ParseFloat Strconv.ParseInt32 port_only_env
           eq_refl eq_refl eq_refl eq_refl eq_refl eq_refl).
Defined.

(** With only [PORT=9000] set and no certificate, [main] serves plain HTTP
    on port 9000 with the defaults, whatever [-port] says. *)
Lemma main_serves_iff_loaded_witness :
  main Strconv.ParseFloat Strconv.ParseInt32 (Some "8080") port_only_env false defaults =
    ([Log Info "Starting HTTP server"],
     inr {| listener := ListenAndServe ":9000"; variables := defaults |}) /\
  boundsOrdered defaults.
Proof.
  split; [reflexivity |].
  exact (proj1 (proj2 (proj2 (proj2 (main_serves_iff_loaded Strconv.ParseFloat
                                   Strconv.ParseInt32 (Some "8080") port_only_env false
                                   defaults)) _ _ eq_refl))).
Defined.
